(** * An OPC UA to HTTP gateway: [app.js]

    The program browses the address space of an OPC UA server, collects the
    identifiers of all variable nodes, resolves a type descriptor for each of
    them and then serves them over HTTP (GET to read, PUT to write).

    The development follows the source file top-down:
    - [JS]         the JavaScript values the program handles and the
                   conversions [Boolean], [Number] and [String];
    - [OpcUa]      the data exchanged with the [node-opcua] session;
    - [Eff]        a small monad for code that awaits session calls;
    - [App]        [findVariables], [getVariableType], the object
                   [variableTypes], the start-up code of [main] and the
                   request handlers, up to their response and, for GET,
                   to their end;
    - [Spec]       the vocabulary of the statements and sample servers;
    - the lemmas and theorems about them. *)

From Stdlib Require Import ZArith NArith Bool List Lia.
From Stdlib Require Import Ascii String DecimalString.
From Stdlib Require Import Floats.
From stdpp Require Import base option list gmap strings.

Open Scope string_scope.
Set Warnings "-register-all,-clear-no-such-hyp".


(* ===================================================================== *)
(** * JavaScript values and conversions *)
(* ===================================================================== *)

Module JS.

(** Values that can arrive in a request body ([express.json] with
    [strict: false] accepts every JSON text) or come out of a session read.
    Numbers are IEEE 754 binary64 values; strings are sequences of code units
    below 256. *)
Inductive JSValue : Type :=
  | JUndefined
  | JNull
  | JBool (b : bool)
  | JNum (x : float)
  | JStr (s : string)
  | JArr (elems : list JSValue)
  | JObj (fields : list (string * JSValue)).

(** ** Rounding an exact rational to binary64 *)

(** [round_ratio neg p q] is the binary64 value nearest to [p / q] (ties to
    even), with sign [neg]. The quotient is computed with at least two extra
    bits and the position of the remainder is handed to the rounding of
    [SpecFloat]. *)
Definition round_ratio (neg : bool) (p q : positive) : float :=
  let dp := Z.pos (SpecFloat.digits2_pos p) in
  let dq := Z.pos (SpecFloat.digits2_pos q) in
  let s := Z.max 0 (56 + dq - dp) in
  let num := Z.shiftl (Z.pos p) s in
  let quo := Z.div num (Z.pos q) in
  let rem := Z.modulo num (Z.pos q) in
  let loc := if Z.eqb rem 0 then SpecFloat.loc_Exact
             else SpecFloat.loc_Inexact (Z.compare (2 * rem) (Z.pos q)) in
  SF2Prim (SpecFloat.binary_round_aux prec emax neg quo (- s) loc).

(** [round_decimal neg m e] is the binary64 value nearest to [m * 10^e]. The
    two early exits only avoid building huge powers of ten: above [10^310]
    every value rounds to infinity and below [10^-330] to zero. *)
Definition round_decimal (neg : bool) (m : N) (e : Z) : float :=
  match m with
  | N0 => if neg then neg_zero else zero
  | Npos p =>
      let d := Z.of_nat (String.length (NilZero.string_of_uint (Pos.to_uint p))) in
      if Z.ltb 310 (d + e) then (if neg then neg_infinity else infinity)
      else if Z.ltb (d + e) (-330) then (if neg then neg_zero else zero)
      else match e with
           | Z0 => round_ratio neg p 1
           | Zpos k => round_ratio neg (p * Pos.pow 10 k) 1
           | Zneg k => round_ratio neg p (Pos.pow 10 k)
           end
  end.

(** ** [StringToNumber] *)

Definition is_str_whitespace (c : ascii) : bool :=
  let n := nat_of_ascii c in
  (Nat.eqb n 9 || Nat.eqb n 10 || Nat.eqb n 11 || Nat.eqb n 12 ||
   Nat.eqb n 13 || Nat.eqb n 32 || Nat.eqb n 160)%bool.

Fixpoint trim_left (s : string) : string :=
  match s with
  | String c r => if is_str_whitespace c then trim_left r else s
  | EmptyString => EmptyString
  end.

Definition string_rev (s : string) : string :=
  string_of_list_ascii (List.rev (list_ascii_of_string s)).

Definition trim (s : string) : string :=
  string_rev (trim_left (string_rev (trim_left s))).

Definition digit_value (radix : N) (c : ascii) : option N :=
  let n := N_of_ascii c in
  let v := if (48 <=? n)%N && (n <=? 57)%N then Some (n - 48)%N
           else if (97 <=? n)%N && (n <=? 122)%N then Some (n - 87)%N
           else if (65 <=? n)%N && (n <=? 90)%N then Some (n - 55)%N
           else None in
  match v with
  | Some d => if (d <? radix)%N then Some d else None
  | None => None
  end.

(** Reads the longest prefix of digits in [radix]: the value read so far, the
    number of digits read and the rest of the string. *)
Fixpoint read_digits (radix : N) (s : string) (acc : N) (count : nat)
  : N * nat * string :=
  match s with
  | String c r =>
      match digit_value radix c with
      | Some d => read_digits radix r (acc * radix + d)%N (S count)
      | None => (acc, count, s)
      end
  | EmptyString => (acc, count, s)
  end.

(** [NonDecimalIntegerLiteral] after its two-character prefix. *)
Definition parse_radix (radix : N) (s : string) : float :=
  match read_digits radix s 0%N 0 with
  | (v, S _, EmptyString) => round_decimal false v 0
  | _ => nan
  end.

(** [ExponentPart], if any; [None] when what follows is not one. *)
Definition parse_exponent (s : string) : option Z :=
  match s with
  | EmptyString => Some 0%Z
  | String c r =>
      if (Ascii.eqb c "e" || Ascii.eqb c "E")%bool then
        let '(neg, r') :=
          match r with
          | String "-" t => (true, t)
          | String "+" t => (false, t)
          | _ => (false, r)
          end in
        match read_digits 10 r' 0%N 0 with
        | (v, S _, EmptyString) =>
            Some (if neg then (- Z.of_N v)%Z else Z.of_N v)
        | _ => None
        end
      else None
  end.

(** [StrUnsignedDecimalLiteral]. *)
Definition parse_unsigned_decimal (neg : bool) (s : string) : float :=
  if String.eqb s "Infinity" then (if neg then neg_infinity else infinity)
  else
    let '(ip, ni, r1) := read_digits 10 s 0%N 0 in
    let '(m, nf, r2) :=
      match r1 with
      | String "." t => read_digits 10 t ip 0
      | _ => (ip, 0, r1)
      end in
    match ni, nf with
    | 0, 0 => nan
    | _, _ =>
        match parse_exponent r2 with
        | Some e => round_decimal neg m (e - Z.of_nat nf)
        | None => nan
        end
    end.

Definition StringToNumber (s : string) : float :=
  match trim s with
  | EmptyString => zero
  | String "0" (String "x" r) | String "0" (String "X" r) => parse_radix 16 r
  | String "0" (String "o" r) | String "0" (String "O" r) => parse_radix 8 r
  | String "0" (String "b" r) | String "0" (String "B" r) => parse_radix 2 r
  | String "-" r => parse_unsigned_decimal true r
  | String "+" r => parse_unsigned_decimal false r
  | t => parse_unsigned_decimal false t
  end.

(** ** [Number::toString] *)

Definition dec_of_N (n : N) : string := NilZero.string_of_uint (N.to_uint n).

Definition zeros (n : nat) : string := string_of_list_ascii (List.repeat "0"%char n).

(** [lt_pow10 p q n] decides [p / q < 10^n]. *)
Definition lt_pow10 (p q : positive) (n : Z) : bool :=
  match n with
  | Z0 => Pos.ltb p q
  | Zpos k => Pos.ltb p (q * Pos.pow 10 k)
  | Zneg k => Pos.ltb (p * Pos.pow 10 k) q
  end.

(** The least [n >= start] with [p / q < 10^n]. *)
Fixpoint first_pow10_above (fuel : nat) (p q : positive) (n : Z) : Z :=
  match fuel with
  | O => n
  | S fuel' => if lt_pow10 p q n then n else first_pow10_above fuel' p q (n + 1)
  end.

(** The integer [n] with [10^(n-1) <= p / q < 10^n]. The binary lengths of
    [p] and [q] place it within two of the starting point. *)
Definition decimal_exponent (p q : positive) : Z :=
  let lg := (Z.pos (SpecFloat.digits2_pos p) - Z.pos (SpecFloat.digits2_pos q))%Z in
  first_pow10_above 8 p q (lg * 30103 / 100000 - 2)%Z.

(** The shortest digit string [s] (as a number, with its length [k] and the
    exponent [n]) such that [s * 10^(n-k)] rounds to [x = p / q]; among two
    candidates of the same length the one nearer to [x], then the even one. *)
Fixpoint shortest_digits (fuel : nat) (x : float) (p q : positive) (n : Z) (k : nat)
  : N * nat * Z :=
  let e := (n - Z.of_nat k)%Z in
  let '(a, b) := match e with
                 | Z0 => (p, q)
                 | Zpos j => (p, (q * Pos.pow 10 j)%positive)
                 | Zneg j => ((p * Pos.pow 10 j)%positive, q)
                 end in
  let lo := (N.pos a / N.pos b)%N in
  let rem := (N.pos a mod N.pos b)%N in
  let hi := (lo + 1)%N in
  let pick_hi := if N.eqb hi (10 ^ N.of_nat k) then ((hi / 10)%N, k, (n + 1)%Z)
                 else (hi, k, n) in
  let ok_lo := PrimFloat.eqb (round_decimal false lo e) x in
  let ok_hi := PrimFloat.eqb (round_decimal false hi e) x in
  let next := match fuel with
              | O => (lo, k, n)
              | S fuel' => shortest_digits fuel' x p q n (S k)
              end in
  if N.eqb rem 0 then (lo, k, n)
  else match ok_lo, ok_hi with
       | true, true =>
           match N.compare (2 * rem) (N.pos b) with
           | Lt => (lo, k, n)
           | Gt => pick_hi
           | Eq => if N.even lo then (lo, k, n) else pick_hi
           end
       | true, false => (lo, k, n)
       | false, true => pick_hi
       | false, false => next
       end.

Definition format_digits (ds : string) (k : nat) (n : Z) : string :=
  if (Z.of_nat k <=? n)%Z && (n <=? 21)%Z then
    ds ++ zeros (Z.to_nat (n - Z.of_nat k))
  else if (0 <? n)%Z && (n <=? 21)%Z then
    substring 0 (Z.to_nat n) ds ++ "." ++ substring (Z.to_nat n) (k - Z.to_nat n) ds
  else if (-6 <? n)%Z && (n <=? 0)%Z then
    "0." ++ zeros (Z.to_nat (- n)) ++ ds
  else
    let e := (n - 1)%Z in
    let es := (if (e <? 0)%Z then "-" else "+") ++ dec_of_N (Z.to_N (Z.abs e)) in
    match k with
    | 1 => ds ++ "e" ++ es
    | _ => substring 0 1 ds ++ "." ++ substring 1 (k - 1) ds ++ "e" ++ es
    end.

Definition NumberToString (x : float) : string :=
  match Prim2SF x with
  | S754_nan => "NaN"
  | S754_zero _ => "0"
  | S754_infinity s => if s then "-Infinity" else "Infinity"
  | S754_finite s m e =>
      let '(p, q) := match e with
                     | Z0 => (m, 1%positive)
                     | Zpos j => ((m * Pos.pow 2 j)%positive, 1%positive)
                     | Zneg j => (m, Pos.pow 2 j)
                     end in
      let n := decimal_exponent p q in
      let '(d, k, n') := shortest_digits 16 (PrimFloat.abs x) p q n 1 in
      (if s then "-" else "") ++ format_digits (dec_of_N d) k n'
  end.

(** ** [ToBoolean], [ToString], [ToNumber] and the three constructors called
    as functions *)

Definition ToBoolean (v : JSValue) : bool :=
  match v with
  | JUndefined | JNull => false
  | JBool b => b
  | JNum x => negb (PrimFloat.is_nan x || PrimFloat.is_zero x)
  | JStr s => negb (String.eqb s "")
  | JArr _ | JObj _ => true
  end.

(** The outcome of a conversion: a value, or a [TypeError] with its
    message. *)
Inductive Completion (A : Type) : Type :=
  | Normal (a : A)
  | ThrowTypeError (message : string).
Arguments Normal {A} a.
Arguments ThrowTypeError {A} message.

(** The object has an own property of that name. *)
Definition has_own_property (fields : list (string * JSValue)) (key : string)
  : bool :=
  existsb (fun field => String.eqb (fst field) key) fields.

(** Arrays convert through [Array.prototype.join], which prints [undefined]
    and [null] elements as the empty string and converts the others from
    left to right. A plain object converts through the inherited
    [Object.prototype.toString], unless it has an own [toString] property:
    the values of these objects are data, never functions, so that property
    is not callable, the inherited [valueOf] gives back the object itself,
    and the conversion ends in a [TypeError]. *)
Fixpoint ToString (v : JSValue) : Completion string :=
  match v with
  | JUndefined => Normal "undefined"
  | JNull => Normal "null"
  | JBool b => Normal (if b then "true" else "false")
  | JNum x => Normal (NumberToString x)
  | JStr s => Normal s
  | JArr elems =>
      let elem (e : JSValue) : Completion string :=
        match e with
        | JUndefined | JNull => Normal ""
        | _ => ToString e
        end in
      (fix join (l : list JSValue) : Completion string :=
         match l with
         | [] => Normal ""
         | [e] => elem e
         | e :: r =>
             match elem e with
             | Normal s =>
                 match join r with
                 | Normal s' => Normal (s ++ "," ++ s')
                 | ThrowTypeError m => ThrowTypeError m
                 end
             | ThrowTypeError m => ThrowTypeError m
             end
         end) elems
  | JObj fields =>
      if has_own_property fields "toString"
      then ThrowTypeError "Cannot convert object to primitive value"
      else Normal "[object Object]"
  end.

(** Objects and arrays are first converted to a primitive, which for these
    values is the string above ([valueOf] never gives a primitive). *)
Definition ToNumber (v : JSValue) : Completion float :=
  match v with
  | JUndefined => Normal nan
  | JNull => Normal zero
  | JBool b => Normal (if b then one else zero)
  | JNum x => Normal x
  | JStr s => Normal (StringToNumber s)
  | JArr _ | JObj _ =>
      match ToString v with
      | Normal s => Normal (StringToNumber s)
      | ThrowTypeError m => ThrowTypeError m
      end
  end.

(** [Boolean(val)], [Number(val)] and [String(val)]. *)
Definition Boolean (val : JSValue) : Completion JSValue :=
  Normal (JBool (ToBoolean val)).

Definition Number (val : JSValue) : Completion JSValue :=
  match ToNumber val with
  | Normal x => Normal (JNum x)
  | ThrowTypeError m => ThrowTypeError m
  end.

Definition String_ (val : JSValue) : Completion JSValue :=
  match ToString val with
  | Normal s => Normal (JStr s)
  | ThrowTypeError m => ThrowTypeError m
  end.

End JS.

(* ===================================================================== *)
(** * Data exchanged with the OPC UA session *)
(* ===================================================================== *)

Module OpcUa.
Import JS.

(** The node classes of OPC UA Part 3; the program names two of them. *)
Inductive NodeClass : Type :=
  | NodeClass_Unspecified | NodeClass_Object | NodeClass_Variable
  | NodeClass_Method | NodeClass_ObjectType | NodeClass_VariableType
  | NodeClass_ReferenceType | NodeClass_DataType | NodeClass_View.

Definition NodeClass_value (c : NodeClass) : N :=
  match c with
  | NodeClass_Unspecified => 0 | NodeClass_Object => 1
  | NodeClass_Variable => 2 | NodeClass_Method => 4
  | NodeClass_ObjectType => 8 | NodeClass_VariableType => 16
  | NodeClass_ReferenceType => 32 | NodeClass_DataType => 64
  | NodeClass_View => 128
  end%N.

(** The built-in data types (the [DataType] enumeration). *)
Inductive DataType : Type :=
  | DataType_Null | DataType_Boolean | DataType_SByte | DataType_Byte
  | DataType_Int16 | DataType_UInt16 | DataType_Int32 | DataType_UInt32
  | DataType_Int64 | DataType_UInt64 | DataType_Float | DataType_Double
  | DataType_String | DataType_DateTime | DataType_Guid
  | DataType_ByteString | DataType_XmlElement | DataType_NodeId
  | DataType_ExpandedNodeId | DataType_StatusCode | DataType_QualifiedName
  | DataType_LocalizedText | DataType_ExtensionObject | DataType_DataValue
  | DataType_Variant | DataType_DiagnosticInfo.

Definition DataType_value (dt : DataType) : N :=
  match dt with
  | DataType_Null => 0 | DataType_Boolean => 1 | DataType_SByte => 2
  | DataType_Byte => 3 | DataType_Int16 => 4 | DataType_UInt16 => 5
  | DataType_Int32 => 6 | DataType_UInt32 => 7 | DataType_Int64 => 8
  | DataType_UInt64 => 9 | DataType_Float => 10 | DataType_Double => 11
  | DataType_String => 12 | DataType_DateTime => 13 | DataType_Guid => 14
  | DataType_ByteString => 15 | DataType_XmlElement => 16
  | DataType_NodeId => 17 | DataType_ExpandedNodeId => 18
  | DataType_StatusCode => 19 | DataType_QualifiedName => 20
  | DataType_LocalizedText => 21 | DataType_ExtensionObject => 22
  | DataType_DataValue => 23 | DataType_Variant => 24
  | DataType_DiagnosticInfo => 25
  end%N.

(** A node identifier: a namespace index and one of the four kinds of
    identifier. *)
Inductive Identifier : Type :=
  | Numeric (i : N)
  | StringId (s : string)
  | GuidId (g : string)
  | Opaque (b : string).

Record NodeId : Type := { namespace : N; identifier : Identifier }.

(** [NodeId.prototype.toString]: [ns=<namespace>;<kind>=<value>]. *)
Definition NodeId_toString (n : NodeId) : string :=
  "ns=" ++ dec_of_N (namespace n) ++ ";" ++
  match identifier n with
  | Numeric i => "i=" ++ dec_of_N i
  | StringId s => "s=" ++ s
  | GuidId g => "g=" ++ g
  | Opaque b => "b=" ++ b
  end.

(** The node the alias ["RootFolder"] resolves to. *)
Definition RootFolder : NodeId := {| namespace := 0; identifier := Numeric 84 |}.

(** One entry of [node.references] in a browse result. A browse resolves to
    the list of these entries. *)
Record ReferenceDescription : Type :=
  { nodeId : NodeId; nodeClass : NodeClass }.

(** The result of a write: [status.value] and [status.description]. *)
Record StatusCode : Type := { value : N; description : string }.

(** The argument of [session.write] as the PUT handler builds it:
    [{ nodeId, attributeId, value: { value: { dataType, value } } }]. *)
Record WriteValue : Type :=
  { wv_nodeId : string;
    wv_attributeId : N;
    wv_dataType : string;
    wv_value : JSValue }.

(** [AttributeIds.Value]. *)
Definition AttributeIds_Value : N := 13.

(** What [readVariableValue] resolves to; the handler reads
    [val.value.value]. *)
Record DataValue : Type := { dv_dataType : DataType; dv_value : JSValue }.

(** A thrown value: the rejection of a session promise or a [TypeError]
    raised by the handler's own code. *)
Record Error : Type := { err_name : string; err_message : string }.

(** The calls a program makes on the session, in the order it makes them. *)
Inductive Call : Type :=
  | CallBrowse (n : NodeId)
  | CallGetBuiltInDataType (id : string)
  | CallReadVariableValue (id : string)
  | CallWrite (w : WriteValue).

Definition Trace : Type := list Call.

(** How an awaited promise settles. *)
Inductive Outcome (A : Type) : Type :=
  | Resolved (a : A)
  | Rejected (e : Error).
Arguments Resolved {A} a.
Arguments Rejected {A} e.

(** The session, seen from the client: each operation answers as a function
    of the calls made before it and of its argument, so that a server whose
    answers change over time is covered. A call that fails is a rejected
    promise. *)
Record Session : Type :=
  { browse : Trace -> NodeId -> Outcome (list ReferenceDescription);
    getBuiltInDataType : Trace -> string -> Outcome DataType;
    readVariableValue : Trace -> string -> Outcome DataValue;
    write : Trace -> WriteValue -> Outcome StatusCode }.

(** The address space does not change: [browse] answers by node alone. *)
Definition fixed_address_space (s : Session)
    (snapshot : NodeId -> Outcome (list ReferenceDescription)) : Prop :=
  forall t n, browse s t n = snapshot n.

End OpcUa.

(* ===================================================================== *)
(** * Asynchronous code over a session *)
(* ===================================================================== *)

Module Eff.
Import OpcUa.

(** The three ways a run of an [async] function can go: it returns, it
    throws (its promise rejects), or the recursion budget of the model runs
    out (the JavaScript program would still be running). *)
Inductive Result (A : Type) : Type :=
  | Returned (a : A) (t : Trace)
  | Thrown (e : Error) (t : Trace)
  | OutOfFuel.
Arguments Returned {A} a t.
Arguments Thrown {A} e t.
Arguments OutOfFuel {A}.

Definition M (A : Type) : Type := Trace -> Result A.

Definition ret {A} (a : A) : M A := fun t => Returned a t.

Definition throw {A} (e : Error) : M A := fun t => Thrown e t.

Definition out_of_fuel {A} : M A := fun _ => OutOfFuel.

Definition bind {A B} (m : M A) (k : A -> M B) : M B :=
  fun t => match m t with
           | Returned a t' => k a t'
           | Thrown e t' => Thrown e t'
           | OutOfFuel => OutOfFuel
           end.

(** [try { m } catch (e) { h e }]. *)
Definition try_catch {A} (m : M A) (h : Error -> M A) : M A :=
  fun t => match m t with
           | Returned a t' => Returned a t'
           | Thrown e t' => h e t'
           | OutOfFuel => OutOfFuel
           end.

(** [await] of a session call: the call is recorded, then the promise's
    outcome is returned or thrown. *)
Definition await {A} (c : Call) (answer : Trace -> Outcome A) : M A :=
  fun t => match answer t with
           | Resolved a => Returned a (t ++ [c])%list
           | Rejected e => Thrown e (t ++ [c])%list
           end.

(** A conversion inside asynchronous code: its [TypeError] is thrown. *)
Definition eval {A} (c : JS.Completion A) : M A :=
  fun t => match c with
           | JS.Normal a => Returned a t
           | JS.ThrowTypeError m =>
               Thrown {| err_name := "TypeError"; err_message := m |} t
           end.

(** [for (let x of l) { acc = body acc x }]. *)
Fixpoint for_of {A S} (l : list A) (body : S -> A -> M S) (acc : S) : M S :=
  match l with
  | [] => ret acc
  | x :: l' => bind (body acc x) (for_of l' body)
  end.

End Eff.

Declare Scope eff_scope.
Delimit Scope eff_scope with eff.
Notation "'let!' x ':=' c 'in' k" := (Eff.bind c (fun x => k))
  (at level 10, x name, c at level 100, k at level 200) : eff_scope.

(* ===================================================================== *)
(** * The program *)
(* ===================================================================== *)

Module App.
Import JS OpcUa Eff.
Local Open Scope eff_scope.

(** ** [findVariables] *)

(** [childVariables.forEach(id => { if (!variables.includes(id))
    variables.push(id); })]. *)
Definition includes (variables : list string) (id : string) : bool :=
  existsb (String.eqb id) variables.

Definition push_new (variables : list string) (id : string) : list string :=
  if negb (includes variables id) then variables ++ [id] else variables.

Definition merge (variables childVariables : list string) : list string :=
  fold_left push_new childVariables variables.

(** [fuel] bounds the depth of the recursion; the JavaScript function has no
    such bound and a run that exhausts it stands for one that is still
    descending. *)
Fixpoint findVariables (fuel : nat) (session : Session) (nodeId : NodeId)
  : M (list string) :=
  match fuel with
  | O => out_of_fuel
  | S fuel' =>
      let! node := await (CallBrowse nodeId) (fun t => browse session t nodeId) in
      for_of node
        (fun variables childNode =>
           let! childVariables :=
             if N.eqb (NodeClass_value (nodeClass childNode))
                      (NodeClass_value NodeClass_Object)
             then findVariables fuel' session (OpcUa.nodeId childNode)
             else if N.eqb (NodeClass_value (nodeClass childNode))
                           (NodeClass_value NodeClass_Variable)
             then ret [NodeId_toString (OpcUa.nodeId childNode)]
             else ret [] in
           ret (merge variables childVariables))
        []
  end.

(** ** [getVariableType] *)

Record TypeDescriptor : Type :=
  { name : string; coerce : JSValue -> Completion JSValue }.

(** A [switch] statement as the list of its [case] arms, in source order.
    The arm taken is the first whose label is strictly equal to the
    discriminant. *)
Fixpoint select_arm {B} (arms : list (DataType * B)) (dt : DataType)
  : option nat :=
  match arms with
  | [] => None
  | (label, _) :: rest =>
      if N.eqb (DataType_value label) (DataType_value dt) then Some 0
      else option_map S (select_arm rest dt)
  end.

(** The first [switch]: every arm assigns [name] and breaks. *)
Definition name_arms : list (DataType * string) :=
  [ (DataType_Boolean, "Boolean");
    (DataType_Byte, "Byte");
    (DataType_Double, "Double");
    (DataType_Float, "Float");
    (DataType_Int16, "Int16");
    (DataType_Int32, "Int32");
    (DataType_LocalizedText, "LocalizedText");
    (DataType_SByte, "SByte");
    (DataType_String, "String");
    (DataType_UInt16, "Int16");
    (DataType_UInt32, "UInt32");
    (DataType_UInt32, "UInt64") ].

Definition switch_name (dt : DataType) (initial : string) : string :=
  match select_arm name_arms dt with
  | Some i => match nth_error name_arms i with
              | Some (_, n) => n
              | None => initial
              end
  | None => initial
  end.

(** The second [switch]: an arm with an empty body ([None]) falls through to
    the next one; the arms with a body assign [coerce] and break. *)
Definition coerce_arms
  : list (DataType * option (JSValue -> Completion JSValue)) :=
  [ (DataType_Boolean, Some Boolean);
    (DataType_Byte, None);
    (DataType_Double, None);
    (DataType_Float, None);
    (DataType_Int16, None);
    (DataType_Int32, None);
    (DataType_SByte, None);
    (DataType_UInt16, None);
    (DataType_UInt32, None);
    (DataType_UInt32, Some Number);
    (DataType_LocalizedText, None);
    (DataType_String, Some String_) ].

(** Execution from an arm on: the first body met, if any. *)
Fixpoint fall_through {A B} (arms : list (A * option B)) : option B :=
  match arms with
  | [] => None
  | (_, Some body) :: _ => Some body
  | (_, None) :: rest => fall_through rest
  end.

Definition switch_coerce (dt : DataType)
    (initial : JSValue -> Completion JSValue)
  : JSValue -> Completion JSValue :=
  match select_arm coerce_arms dt with
  | Some i => match fall_through (skipn i coerce_arms) with
              | Some f => f
              | None => initial
              end
  | None => initial
  end.

Definition getVariableType (session : Session) (nodeId : string)
  : M TypeDescriptor :=
  let! dt := await (CallGetBuiltInDataType nodeId)
                   (fun t => getBuiltInDataType session t nodeId) in
  let name := switch_name dt "String" in
  let coerce := switch_coerce dt (fun val => Normal val) in
  ret {| name := name; coerce := coerce |}.

(** ** The type index [variableTypes]

    [variableTypes] is a plain object literal used as a map. Reading a
    property that is not an own property continues in the prototype, and
    assigning to [__proto__] replaces the prototype instead of creating a
    property. [proto] is [None] for [Object.prototype] and [Some d] once the
    descriptor object [d] has been installed as prototype (which itself
    inherits from [Object.prototype]). *)
Record TypeIndex : Type :=
  { own : gmap string TypeDescriptor; proto : option TypeDescriptor }.

(** [{}]. *)
Definition empty_object : TypeIndex := {| own := ∅; proto := None |}.

(** The properties of [Object.prototype]; all of them are functions except
    the accessor [__proto__]. *)
Definition object_prototype_names : list string :=
  [ "constructor"; "__defineGetter__"; "__defineSetter__"; "hasOwnProperty";
    "__lookupGetter__"; "__lookupSetter__"; "isPrototypeOf";
    "propertyIsEnumerable"; "toString"; "valueOf"; "__proto__";
    "toLocaleString" ].

(** What a property read can produce. *)
Inductive Property : Type :=
  | PDescriptor (d : TypeDescriptor)
  | PString (s : string)
  | PFunction
  | PObjectPrototype
  | PUndefined.

Definition object_prototype_get (k : string) : Property :=
  if existsb (String.eqb k) object_prototype_names then PFunction
  else PUndefined.

(** [variableTypes[id]]. *)
Definition get (variableTypes : TypeIndex) (id : string) : Property :=
  match own variableTypes !! id with
  | Some d => PDescriptor d
  | None =>
      if String.eqb id "__proto__" then
        match proto variableTypes with
        | Some d => PDescriptor d
        | None => PObjectPrototype
        end
      else
        match proto variableTypes with
        | Some d =>
            if String.eqb id "name" then PString (name d)
            else if String.eqb id "coerce" then PFunction
            else object_prototype_get id
        | None => object_prototype_get id
        end
  end.

(** [variableTypes[id] = d]. *)
Definition set (variableTypes : TypeIndex) (id : string) (d : TypeDescriptor)
  : TypeIndex :=
  if String.eqb id "__proto__" then
    {| own := own variableTypes; proto := Some d |}
  else
    {| own := <[id := d]> (own variableTypes); proto := proto variableTypes |}.

(** Truthiness of a property value, as tested by [!variableTypes[id]]. *)
Definition truthy (p : Property) : bool :=
  match p with
  | PDescriptor _ | PFunction | PObjectPrototype => true
  | PString s => negb (String.eqb s "")
  | PUndefined => false
  end.

(** ** [main], up to the start of the Web server *)

(** The discovery pass and the loop that fills [variableTypes]. Connecting
    and creating the session come before and are not part of the model. *)
Definition startup (fuel : nat) (session : Session)
  : M (list string * TypeIndex) :=
  let! variables := findVariables fuel session RootFolder in
  let! variableTypes :=
    for_of variables
      (fun variableTypes id =>
         let! d := getVariableType session id in
         ret (set variableTypes id d))
      empty_object in
  ret (variables, variableTypes).

(** ** The HTTP responses *)

Inductive Body : Type :=
  | NoBody
  | BodyText (s : string)
  | BodyJson (v : JSValue)
  | BodyError (e : Error).

Record Response : Type := { statusCode : N; body : Body }.

(** The reason phrases of the status codes the program sends. *)
Definition status_message (code : N) : string :=
  match code with
  | 200 => "OK"
  | 204 => "No Content"
  | 400 => "Bad Request"
  | 404 => "Not Found"
  | 500 => "Internal Server Error"
  | _ => dec_of_N code
  end%N.

(** [res.sendStatus(code)]: the reason phrase is sent as a text body, which
    [res.send] drops again for 204 and 304. *)
Definition sendStatus (code : N) : Response :=
  {| statusCode := code;
     body := if (N.eqb code 204 || N.eqb code 304)%bool then NoBody
             else BodyText (status_message code) |}.

(** [res.json(v)]. *)
Definition json (v : JSValue) : Response :=
  {| statusCode := 200; body := BodyJson v |}.

(** ** The request handlers

    A handler is followed up to its response: [Returned r t] says that it
    has sent [r] after the calls [t], [Thrown e t] that it threw [e] before
    sending any response, which leaves the rejection to whoever called it.
    The log lines that interpolate only strings have no part in this. *)


(** [app.get('/:nodeId', ...)], up to its response. What the handler does
    after [res.json] is followed in [get_nodeId_handler] below. *)
Definition get_nodeId (session : Session) (variableTypes : TypeIndex)
    (id : string) : M Response :=
  if negb (truthy (get variableTypes id)) then
    ret (sendStatus 404)
  else
    try_catch
      (let! val := await (CallReadVariableValue id)
                         (fun t => readVariableValue session t id) in
       let raw := dv_value val in
       ret (json raw))
      (fun e => ret {| statusCode := 500; body := BodyError e |}).

(** [console.log] of a template literal that interpolates [v]: nothing of
    the output is modelled, but building the string converts [v]. *)
Definition console_log (v : JSValue) : M unit :=
  let! _ := eval (ToString v) in
  ret tt.

(** [app.put('/:nodeId', ...)]. The first statement logs the body. The
    object literal passed to [session.write] reads [type.name] and calls
    [type.coerce(raw)]; only a descriptor has a [coerce] method, on anything
    else the call is a [TypeError]. The log lines after the responses
    interpolate strings only. *)
Definition put_nodeId (session : Session) (variableTypes : TypeIndex)
    (id : string) (raw : JSValue) : M Response :=
  let! _ := console_log raw in
  if negb (truthy (get variableTypes id)) then
    ret (sendStatus 404)
  else
    match get variableTypes id with
    | PDescriptor type =>
        let! coerced := eval (coerce type raw) in
        let w := {| wv_nodeId := id;
                    wv_attributeId := AttributeIds_Value;
                    wv_dataType := name type;
                    wv_value := coerced |} in
        let! status := await (CallWrite w) (fun t => write session t w) in
        if N.eqb (value status) 0 then
          ret (sendStatus 204)
        else
          ret {| statusCode := 400; body := BodyText (description status) |}
    | _ =>
        throw {| err_name := "TypeError";
                 err_message := "type.coerce is not a function" |}
    end.

(** ** The GET handler to its end

    [get_nodeId] above gives the response of the GET handler and the calls
    made up to it. The handler goes on after [res.json]: it logs the value
    read, inside the [try] block, and a failure there is caught by a handler
    that tries to respond a second time. What follows tracks the response
    already sent. *)

(** How a handler ends: the value, the response sent so far and the calls
    made; or the error it rejects with, likewise. *)
Inductive Handled (A : Type) : Type :=
  | Fulfilled (a : A) (sent : option Response) (t : Trace)
  | RejectedWith (e : Error) (sent : option Response) (t : Trace).
Arguments Fulfilled {A} a sent t.
Arguments RejectedWith {A} e sent t.

Definition H (A : Type) : Type := option Response -> Trace -> Handled A.

Definition h_ret {A} (a : A) : H A := fun sent t => Fulfilled a sent t.

Definition h_bind {A B} (m : H A) (k : A -> H B) : H B :=
  fun sent t => match m sent t with
                | Fulfilled a sent' t' => k a sent' t'
                | RejectedWith e sent' t' => RejectedWith e sent' t'
                end.

Definition h_try_catch {A} (m : H A) (h : Error -> H A) : H A :=
  fun sent t => match m sent t with
                | Fulfilled a sent' t' => Fulfilled a sent' t'
                | RejectedWith e sent' t' => h e sent' t'
                end.

Definition h_await {A} (c : Call) (answer : Trace -> Outcome A) : H A :=
  fun sent t => match answer t with
                | Resolved a => Fulfilled a sent (t ++ [c])%list
                | Rejected e => RejectedWith e sent (t ++ [c])%list
                end.

Definition h_eval {A} (c : Completion A) : H A :=
  fun sent t => match c with
                | Normal a => Fulfilled a sent t
                | ThrowTypeError m =>
                    RejectedWith {| err_name := "TypeError"; err_message := m |}
                                 sent t
                end.

(** What the response methods throw once the response has gone out. *)
Definition headers_sent : Error :=
  {| err_name := "Error";
     err_message := "Cannot set headers after they are sent to the client" |}.

(** [res.sendStatus], [res.json] and [res.status(..).send(..)]: the first
    one sends the response, any later one throws. *)
Definition respond (r : Response) : H unit :=
  fun sent t => match sent with
                | None => Fulfilled tt (Some r) t
                | Some _ => RejectedWith headers_sent sent t
                end.

(** [app.get('/:nodeId', ...)], every statement after the first log line. *)
Definition get_nodeId_handler (session : Session) (variableTypes : TypeIndex)
    (id : string) : H unit :=
  if negb (truthy (get variableTypes id)) then
    respond (sendStatus 404)
  else
    h_try_catch
      (h_bind (h_await (CallReadVariableValue id)
                       (fun t => readVariableValue session t id))
         (fun val =>
            let raw := dv_value val in
            h_bind (respond (json raw))
              (fun _ => h_bind (h_eval (ToString (dv_value val)))
                          (fun _ => h_ret tt))))
      (fun e => respond {| statusCode := 500; body := BodyError e |}).

End App.

(* ===================================================================== *)
(** * Specification vocabulary and sample address spaces *)
(* ===================================================================== *)

Module Spec.
Import JS OpcUa Eff App.

(** [reachable snapshot n id]: [id] is the printed identifier of a variable
    found below node [n] by following references to objects. *)
Inductive reachable (snapshot : NodeId -> Outcome (list ReferenceDescription))
  : NodeId -> string -> Prop :=
  | reach_variable n refs r :
      snapshot n = Resolved refs ->
      In r refs ->
      nodeClass r = NodeClass_Variable ->
      reachable snapshot n (NodeId_toString (nodeId r))
  | reach_object n refs r id :
      snapshot n = Resolved refs ->
      In r refs ->
      nodeClass r = NodeClass_Object ->
      reachable snapshot (nodeId r) id ->
      reachable snapshot n id.

(** The identifiers asked for by the type queries of a trace, in order. *)
Fixpoint type_queries (t : Trace) : list string :=
  match t with
  | [] => []
  | CallGetBuiltInDataType id :: t' => id :: type_queries t'
  | _ :: t' => type_queries t'
  end.

(** The round of the loop of [findVariables]: [f] yields the child's
    variables, which are merged into the running list. *)
Definition merge_body {A} (f : A -> M (list string))
  : list string -> A -> M (list string) :=
  fun variables x =>
    (let! childVariables := f x in
     ret (merge variables childVariables))%eff.

(** What [findVariables] asks of one child. *)
Definition child_variables (fuel' : nat) (session : Session)
    (childNode : ReferenceDescription) : M (list string) :=
  if N.eqb (NodeClass_value (nodeClass childNode))
           (NodeClass_value NodeClass_Object)
  then findVariables fuel' session (nodeId childNode)
  else if N.eqb (NodeClass_value (nodeClass childNode))
                (NodeClass_value NodeClass_Variable)
  then ret [NodeId_toString (nodeId childNode)]
  else ret [].

(** One round of the loop of [main] that fills [variableTypes]. *)
Definition index_body (session : Session)
  : TypeIndex -> string -> M TypeIndex :=
  fun variableTypes id =>
    (let! d := getVariableType session id in
     ret (set variableTypes id d))%eff.

(** The handler has answered with status [code]. *)
Definition responds (r : Result Response) (code : N) : Prop :=
  exists b t, r = Returned {| statusCode := code; body := b |} t.

(** The calls made by the end of a run that did not run out of fuel. *)
Definition trace_of {A} (r : Result A) : option Trace :=
  match r with
  | Returned _ t | Thrown _ t => Some t
  | OutOfFuel => None
  end.

(** *** A diamond: two folders that both hold the same variable *)

Definition ns1 (i : N) : NodeId := {| namespace := 1; identifier := Numeric i |}.

Definition ref (c : NodeClass) (n : NodeId) : ReferenceDescription :=
  {| nodeId := n; nodeClass := c |}.

Definition is_node (n : NodeId) (ns i : N) : bool :=
  match identifier n with
  | Numeric j => N.eqb (namespace n) ns && N.eqb j i
  | _ => false
  end.

(** Root holds folders 10 and 11 and a method; folder 10 holds variable 1,
    folder 11 holds variables 1 and 2. *)
Definition diamond_space (n : NodeId) : Outcome (list ReferenceDescription) :=
  if is_node n 0 84 then
    Resolved [ref NodeClass_Object (ns1 10); ref NodeClass_Method (ns1 12);
              ref NodeClass_Object (ns1 11)]
  else if is_node n 1 10 then Resolved [ref NodeClass_Variable (ns1 1)]
  else if is_node n 1 11 then
    Resolved [ref NodeClass_Variable (ns1 1); ref NodeClass_Variable (ns1 2)]
  else Resolved [].

Definition timeout : Error :=
  {| err_name := "Error"; err_message := "Transaction has timed out" |}.

Definition unknown_node : Error :=
  {| err_name := "Error"; err_message := "BadNodeIdUnknown" |}.

Definition is_diamond_variable (id : string) : bool :=
  String.eqb id "ns=1;i=1" || String.eqb id "ns=1;i=2".

(** A server over the diamond: variable 1 is a [UInt16], variable 2 a
    [Boolean]; reads of the two variables give 7 and writes to them are
    accepted; any other identifier is rejected. *)
Definition diamond_session : Session :=
  {| browse := fun _ n => diamond_space n;
     getBuiltInDataType := fun _ id =>
       if String.eqb id "ns=1;i=1" then Resolved DataType_UInt16
       else if String.eqb id "ns=1;i=2" then Resolved DataType_Boolean
       else Rejected unknown_node;
     readVariableValue := fun _ id =>
       if is_diamond_variable id
       then Resolved {| dv_dataType := DataType_UInt16; dv_value := JNum 7 |}
       else Rejected unknown_node;
     write := fun _ w =>
       if is_diamond_variable (wv_nodeId w)
       then Resolved {| value := 0; description := "Good" |}
       else Rejected unknown_node |}.

(** The same server once the connection is lost: reads and writes reject. *)
Definition broken_session : Session :=
  {| browse := fun _ n => diamond_space n;
     getBuiltInDataType := getBuiltInDataType diamond_session;
     readVariableValue := fun _ _ => Rejected timeout;
     write := fun _ _ => Rejected timeout |}.

(** The same server refusing every write. *)
Definition refusing_session : Session :=
  {| browse := fun _ n => diamond_space n;
     getBuiltInDataType := getBuiltInDataType diamond_session;
     readVariableValue := readVariableValue diamond_session;
     write := fun _ _ =>
       Resolved {| value := 2155085824; description := "BadTypeMismatch" |} |}.

(** The same server with 64-bit integer variables. *)
Definition int64_session : Session :=
  {| browse := fun _ n => diamond_space n;
     getBuiltInDataType := fun _ _ => Resolved DataType_Int64;
     readVariableValue := readVariableValue diamond_session;
     write := write diamond_session |}.

(** Two folders that list each other. *)
Definition cyclic_space (n : NodeId) : Outcome (list ReferenceDescription) :=
  if is_node n 1 20 then Resolved [ref NodeClass_Object (ns1 21)]
  else if is_node n 1 21 then Resolved [ref NodeClass_Object (ns1 20)]
  else Resolved [].

Definition cyclic_session : Session :=
  {| browse := fun _ n => cyclic_space n;
     getBuiltInDataType := getBuiltInDataType diamond_session;
     readVariableValue := readVariableValue diamond_session;
     write := write diamond_session |}.

(** Depth of the nodes of the diamond. *)
Definition diamond_depth (n : NodeId) : nat :=
  if is_node n 0 84 then 1 else 0.

(** The index [startup] builds over the diamond. *)
Definition diamond_index : TypeIndex :=
  set (set empty_object "ns=1;i=1" {| name := "Int16"; coerce := Number |})
      "ns=1;i=2" {| name := "Boolean"; coerce := Boolean |}.

(** The diamond server with folder 11 out of reach. *)
Definition failing_browse_session : Session :=
  {| browse := fun _ n => if is_node n 1 11 then Rejected timeout
                          else diamond_space n;
     getBuiltInDataType := getBuiltInDataType diamond_session;
     readVariableValue := readVariableValue diamond_session;
     write := write diamond_session |}.

(** The diamond server unable to tell the type of variable 2. *)
Definition failing_type_session : Session :=
  {| browse := fun _ n => diamond_space n;
     getBuiltInDataType := fun _ id =>
       if String.eqb id "ns=1;i=2" then Rejected timeout
       else Resolved DataType_UInt16;
     readVariableValue := readVariableValue diamond_session;
     write := write diamond_session |}.

(** The diamond server with a structure as the value of its variables, one
    of whose fields is called [toString]. *)
Definition structure_session : Session :=
  {| browse := fun _ n => diamond_space n;
     getBuiltInDataType := getBuiltInDataType diamond_session;
     readVariableValue := fun _ _ =>
       Resolved {| dv_dataType := DataType_ExtensionObject;
                   dv_value := JObj [("toString", JStr "x")] |};
     write := write diamond_session |}.

(** *** Vocabulary for the walk *)

(** The references the walk acts on: objects and variables. *)
Definition walked_class (r : ReferenceDescription) : bool :=
  match nodeClass r with
  | NodeClass_Object | NodeClass_Variable => true
  | _ => false
  end.

(** The session that hides every reference of another class. *)
Definition pruned (s : Session) : Session :=
  {| browse := fun t n =>
       match browse s t n with
       | Resolved refs => Resolved (List.filter walked_class refs)
       | Rejected e => Rejected e
       end;
     getBuiltInDataType := getBuiltInDataType s;
     readVariableValue := readVariableValue s;
     write := write s |}.

Definition is_browse (c : Call) : Prop := exists m, c = CallBrowse m.

(** [chain snapshot n k]: from [n] one can follow [k] references to objects
    in a row. *)
Inductive chain (snapshot : NodeId -> Outcome (list ReferenceDescription))
  : NodeId -> nat -> Prop :=
  | chain_here n : chain snapshot n 0
  | chain_step n refs r k :
      snapshot n = Resolved refs ->
      In r refs ->
      nodeClass r = NodeClass_Object ->
      chain snapshot (nodeId r) k ->
      chain snapshot n (S k).

(** The names [getVariableType] can give. *)
Definition type_names : list string :=
  [ "Boolean"; "Byte"; "Double"; "Float"; "Int16"; "Int32"; "LocalizedText";
    "SByte"; "String"; "UInt32" ].

(** The tags whose coercion is [Number]. *)
Definition numeric_types : list DataType :=
  [ DataType_Byte; DataType_Double; DataType_Float; DataType_Int16;
    DataType_Int32; DataType_SByte; DataType_UInt16; DataType_UInt32 ].

(** The session answered call [c], made after the calls [t0], with the
    rejection [e]. *)
Definition rejected_by (s : Session) (e : Error) (t0 : Trace) (c : Call)
  : Prop :=
  match c with
  | CallBrowse m => browse s t0 m = Rejected e
  | CallGetBuiltInDataType id => getBuiltInDataType s t0 id = Rejected e
  | CallReadVariableValue id => readVariableValue s t0 id = Rejected e
  | CallWrite w => write s t0 w = Rejected e
  end.

Definition type_error : Error :=
  {| err_name := "TypeError"; err_message := "type.coerce is not a function" |}.

End Spec.

(* ===================================================================== *)
(** * Properties of the monad *)
(* ===================================================================== *)

Import JS OpcUa Eff App Spec.
Open Scope eff_scope.
Open Scope list_scope.

Lemma bind_returned {A B} (m : M A) (k : A -> M B) t b t' :
  bind m k t = Returned b t' ->
  exists a t1, m t = Returned a t1 /\ k a t1 = Returned b t'.
Proof.
  unfold bind. destruct (m t) as [a t1|e t1|]; try discriminate.
  intros H. exists a, t1. split; [reflexivity | exact H].
Qed.

Lemma await_returned {A} (c : Call) (answer : Trace -> Outcome A) t a t' :
  await c answer t = Returned a t' ->
  answer t = Resolved a /\ t' = (t ++ [c])%list.
Proof.
  unfold await. destruct (answer t); intros H; inversion H; auto.
Qed.

Lemma ret_returned {A} (a b : A) t t' :
  ret a t = Returned b t' -> b = a /\ t' = t.
Proof. unfold ret. intros H; inversion H; auto. Qed.

(** A property of the accumulator that every iteration keeps also holds
    when the loop is over. *)
Lemma for_of_invariant {A S} (P : S -> Prop) (body : S -> A -> M S) l :
  (forall s x t s' t', x ∈ l -> P s -> body s x t = Returned s' t' -> P s') ->
  forall acc t r t',
    P acc -> for_of l body acc t = Returned r t' -> P r.
Proof.
  induction l as [|x l IH]; intros Hbody acc t r t' Hacc Hrun.
  - inversion Hrun; subst; exact Hacc.
  - simpl in Hrun. apply bind_returned in Hrun as (s1 & t1 & H1 & H2).
    eapply IH; [|eapply Hbody; [left|exact Hacc|exact H1]|exact H2].
    intros s y u s' u' Hy. apply Hbody. right. exact Hy.
Qed.

Lemma for_of_no_out_of_fuel {A S} (body : S -> A -> M S) l :
  (forall s x t, x ∈ l -> body s x t <> OutOfFuel) ->
  forall acc t, for_of l body acc t <> OutOfFuel.
Proof.
  induction l as [|x l IH]; intros Hbody acc t; [discriminate|].
  simpl. unfold bind at 1.
  destruct (body acc x t) as [s1 t1|e t1|] eqn:Hx; [|discriminate|].
  - apply IH. intros s y u Hy. apply Hbody. right. exact Hy.
  - exfalso. eapply Hbody; [left|exact Hx].
Qed.

(* ===================================================================== *)
(** * Discovery *)
(* ===================================================================== *)

Section Merge.
Implicit Types variables childVariables : list string.

Lemma includes_elem_of variables id :
  includes variables id = true <-> id ∈ variables.
Proof.
  unfold includes. rewrite existsb_exists, list_elem_of_In. split.
  - intros (x & Hx & Heq). apply String.eqb_eq in Heq. subst. exact Hx.
  - intros H. exists id. split; [exact H | apply String.eqb_refl].
Qed.

Lemma push_new_NoDup variables id :
  NoDup variables -> NoDup (push_new variables id).
Proof.
  intros Hnd. unfold push_new.
  destruct (includes variables id) eqn:Hin; simpl; [exact Hnd|].
  apply NoDup_app. split; [exact Hnd|]. split; [|apply NoDup_singleton].
  intros x Hx Hx'. apply list_elem_of_singleton in Hx'. subst x.
  apply includes_elem_of in Hx. congruence.
Qed.

Lemma elem_of_push_new variables id x :
  x ∈ push_new variables id <-> x ∈ variables \/ x = id.
Proof.
  unfold push_new. destruct (includes variables id) eqn:Hin; simpl.
  - apply includes_elem_of in Hin. split; [auto|]. intros [H| ->]; auto.
  - rewrite elem_of_app, list_elem_of_singleton. reflexivity.
Qed.

Lemma merge_NoDup childVariables : forall variables,
  NoDup variables -> NoDup (merge variables childVariables).
Proof.
  unfold merge. induction childVariables as [|id l IH]; intros variables H.
  - exact H.
  - simpl. apply IH, push_new_NoDup, H.
Qed.

Lemma elem_of_merge childVariables : forall variables x,
  x ∈ merge variables childVariables <-> x ∈ variables \/ x ∈ childVariables.
Proof.
  unfold merge. induction childVariables as [|id l IH]; intros variables x.
  - simpl. rewrite elem_of_nil. tauto.
  - simpl. rewrite IH, elem_of_push_new, elem_of_cons. tauto.
Qed.
End Merge.

Section MergeLoop.
Context {A : Type}.
Implicit Types (f : A -> M (list string)) (l : list A).

Lemma merge_loop_NoDup f l acc t r t' :
  NoDup acc -> for_of l (merge_body f) acc t = Returned r t' -> NoDup r.
Proof.
  apply (for_of_invariant (fun s => NoDup s)).
  intros s x u s' u' _ Hs Hrun.
  apply bind_returned in Hrun as (cv & u1 & _ & Hret).
  apply ret_returned in Hret as [-> _]. apply merge_NoDup, Hs.
Qed.

(** Everything a run of [f] contributed is in the final list. *)
Lemma merge_loop_complete f l : forall acc t r t',
  for_of l (merge_body f) acc t = Returned r t' ->
  (forall id, id ∈ acc -> id ∈ r) /\
  (forall x, x ∈ l -> exists t1 cv t2,
      f x t1 = Returned cv t2 /\ forall id, id ∈ cv -> id ∈ r).
Proof.
  induction l as [|y l IH]; intros acc t r t' Hrun.
  - apply ret_returned in Hrun as [-> _]. split; [auto|].
    intros x Hx. inversion Hx.
  - simpl in Hrun. apply bind_returned in Hrun as (s1 & t1 & Hy & Hrest).
    apply bind_returned in Hy as (cv & t0 & Hf & Hret).
    apply ret_returned in Hret as [-> ->].
    destruct (IH _ _ _ _ Hrest) as [Hacc Hl]. split.
    + intros id Hid. apply Hacc, elem_of_merge. left. exact Hid.
    + intros x Hx. apply elem_of_cons in Hx as [-> | Hx]; [|auto].
      exists t, cv, t0. split; [exact Hf|].
      intros id Hid. apply Hacc, elem_of_merge. right. exact Hid.
Qed.

(** If every run of [f1] that returns is matched by [f2] from any trace,
    so is the whole loop. *)
Lemma merge_loop_transfer f1 f2 l :
  (forall x t cv t', x ∈ l -> f1 x t = Returned cv t' ->
     forall u, exists u', f2 x u = Returned cv u') ->
  forall acc t r t',
    for_of l (merge_body f1) acc t = Returned r t' ->
    forall u, exists u', for_of l (merge_body f2) acc u = Returned r u'.
Proof.
  induction l as [|y l IH]; intros Hf acc t r t' Hrun u.
  - apply ret_returned in Hrun as [-> _]. exists u. reflexivity.
  - simpl in Hrun. apply bind_returned in Hrun as (s1 & t1 & Hy & Hrest).
    apply bind_returned in Hy as (cv & t0 & Hf1 & Hret).
    apply ret_returned in Hret as [-> ->].
    destruct (Hf y t cv t0 ltac:(left) Hf1 u) as [u0 Hf2].
    destruct (IH (fun x t cv t' Hx => Hf x t cv t' ltac:(right; exact Hx))
                 _ _ _ _ Hrest u0) as [u' Hloop].
    exists u'. simpl. unfold merge_body at 1, bind at 1 2.
    rewrite Hf2. simpl. exact Hloop.
Qed.
End MergeLoop.

Lemma findVariables_unfold fuel' session n :
  findVariables (S fuel') session n =
  (let! node := await (CallBrowse n) (fun t => browse session t n) in
   for_of node (merge_body (child_variables fuel' session)) []).
Proof. reflexivity. Qed.

Lemma findVariables_returned fuel session n t variables t' :
  findVariables fuel session n t = Returned variables t' ->
  exists fuel' refs,
    fuel = S fuel' /\ browse session t n = Resolved refs /\
    for_of refs (merge_body (child_variables fuel' session)) []
           (t ++ [CallBrowse n])%list = Returned variables t'.
Proof.
  destruct fuel as [|fuel']; [discriminate|]. rewrite findVariables_unfold.
  intros H. apply bind_returned in H as (refs & t1 & Hb & Hloop).
  apply await_returned in Hb as [Hb ->]. eauto.
Qed.

Lemma findVariables_NoDup fuel session n t variables t' :
  findVariables fuel session n t = Returned variables t' -> NoDup variables.
Proof.
  intros H. apply findVariables_returned in H as (fuel' & refs & _ & _ & Hloop).
  eapply merge_loop_NoDup; [apply NoDup_nil_2 | exact Hloop].
Qed.

Section FixedAddressSpace.
Variable snapshot : NodeId -> Outcome (list ReferenceDescription).

(** Every reachable variable is collected. *)
Lemma findVariables_complete session :
  fixed_address_space session snapshot ->
  forall fuel n t variables t',
    findVariables fuel session n t = Returned variables t' ->
    forall id, reachable snapshot n id -> id ∈ variables.
Proof.
  intros Hfix. induction fuel as [|fuel' IH]; intros n t variables t' Hrun id Hreach;
    [discriminate|].
  apply findVariables_returned in Hrun as (f & refs & [= <-] & Hb & Hloop).
  rewrite Hfix in Hb.
  apply merge_loop_complete in Hloop as [_ Hl].
  inversion Hreach as [n0 refs0 r Hs Hr Hc | n0 refs0 r id0 Hs Hr Hc Hsub]; subst;
    rewrite Hb in Hs; injection Hs as <-;
    apply list_elem_of_In in Hr;
    destruct (Hl r Hr) as (t1 & cv & t2 & Hf & Hcv); apply Hcv;
    unfold child_variables in Hf; rewrite Hc in Hf; simpl in Hf.
  - apply ret_returned in Hf as [-> _]. apply list_elem_of_singleton. reflexivity.
  - eapply IH; eauto.
Qed.

(** Only reachable variables are collected. *)
Lemma findVariables_sound session :
  fixed_address_space session snapshot ->
  forall fuel n t variables t',
    findVariables fuel session n t = Returned variables t' ->
    forall id, id ∈ variables -> reachable snapshot n id.
Proof.
  intros Hfix. induction fuel as [|fuel' IH]; intros n t variables t' Hrun;
    [discriminate|].
  apply findVariables_returned in Hrun as (f & refs & [= <-] & Hb & Hloop).
  rewrite Hfix in Hb. revert Hloop.
  apply (for_of_invariant (fun s => forall id, id ∈ s -> reachable snapshot n id)).
  - intros s r u s' u' Hr Hs Hbody id Hid.
    apply bind_returned in Hbody as (cv & u1 & Hf & Hret).
    apply ret_returned in Hret as [-> _].
    apply elem_of_merge in Hid as [Hid | Hid]; [auto|].
    apply list_elem_of_In in Hr.
    unfold child_variables in Hf.
    destruct (nodeClass r) eqn:Hc; simpl in Hf;
      try (apply ret_returned in Hf as [-> _]);
      try (inversion Hid; fail).
    + eapply reach_object; eauto.
    + apply list_elem_of_singleton in Hid as ->. eapply reach_variable; eauto.
  - intros id Hid. inversion Hid.
Qed.

(** A run that returns is reproduced, from any trace and on any session
    over the same address space, by every run with at least as much
    fuel. *)
Lemma findVariables_transfer session1 session2 :
  fixed_address_space session1 snapshot ->
  fixed_address_space session2 snapshot ->
  forall fuel1 fuel2 n t variables t',
    findVariables fuel1 session1 n t = Returned variables t' ->
    fuel1 <= fuel2 ->
    forall u, exists u', findVariables fuel2 session2 n u = Returned variables u'.
Proof.
  intros Hfix1 Hfix2.
  induction fuel1 as [|fuel1 IH]; intros fuel2 n t variables t' Hrun Hle u;
    [discriminate|].
  destruct fuel2 as [|fuel2]; [lia|].
  apply findVariables_returned in Hrun as (f & refs & [= <-] & Hb & Hloop).
  rewrite Hfix1 in Hb. rewrite findVariables_unfold.
  unfold bind at 1, await. rewrite Hfix2, Hb.
  eapply merge_loop_transfer; [|exact Hloop].
  intros r t0 cv t0' _ Hf u0. unfold child_variables in *.
  destruct (N.eqb _ _); [eapply IH; [exact Hf|lia]|].
  destruct (N.eqb _ _); apply ret_returned in Hf as [-> _]; eexists; reflexivity.
Qed.
(** Where the object references descend along some measure, a budget above
    the measure of the root is enough: the walk returns or throws. *)
Lemma findVariables_terminates session (depth : NodeId -> nat) :
  fixed_address_space session snapshot ->
  (forall n refs r,
      snapshot n = Resolved refs -> r ∈ refs ->
      nodeClass r = NodeClass_Object -> depth (nodeId r) < depth n) ->
  forall fuel n t,
    depth n < fuel -> findVariables fuel session n t <> OutOfFuel.
Proof.
  intros Hfix Hdesc. induction fuel as [|fuel' IH]; intros n t Hlt; [lia|].
  rewrite findVariables_unfold. unfold bind at 1, await. rewrite Hfix.
  destruct (snapshot n) as [refs|e] eqn:Hsnap; [|discriminate].
  apply for_of_no_out_of_fuel. intros s r u Hr.
  unfold merge_body, bind, child_variables.
  destruct (nodeClass r) eqn:Hc; simpl; try discriminate.
  specialize (Hdesc n refs r Hsnap Hr Hc).
  specialize (IH (nodeId r) u ltac:(lia)).
  destruct (findVariables fuel' session (nodeId r) u); [discriminate..|congruence].
Qed.
End FixedAddressSpace.

(** On a cycle of folders the walk never comes back, whatever the budget. *)
Lemma cyclic_walk_never_returns fuel : forall t,
  findVariables fuel cyclic_session (ns1 20) t = OutOfFuel /\
  findVariables fuel cyclic_session (ns1 21) t = OutOfFuel.
Proof.
  induction fuel as [|fuel' IH]; intros t; [split; reflexivity|].
  split; rewrite findVariables_unfold; unfold bind at 1, await; simpl;
    unfold merge_body, bind, child_variables; simpl;
    [rewrite (proj2 (IH _)) | rewrite (proj1 (IH _))]; reflexivity.
Qed.

(** The diamond is walked with a budget of two, from any trace. *)
Lemma diamond_walk_terminates fuel t :
  1 < fuel -> findVariables fuel diamond_session RootFolder t <> OutOfFuel.
Proof.
  intros Hfuel.
  apply (findVariables_terminates diamond_space diamond_session diamond_depth).
  - intros u n. reflexivity.
  - intros n refs r Hsnap Hr Hc. unfold diamond_space in Hsnap.
    destruct (is_node n 0 84) eqn:Hroot.
    + injection Hsnap as <-. unfold diamond_depth at 2. rewrite Hroot.
      apply list_elem_of_In in Hr. simpl in Hr.
      destruct Hr as [<- | [<- | [<- | []]]]; try discriminate Hc;
        vm_compute; lia.
    + destruct (is_node n 1 10); [|destruct (is_node n 1 11)];
        injection Hsnap as <-; apply list_elem_of_In in Hr; simpl in Hr;
        repeat (destruct Hr as [<- | Hr]; [discriminate Hc|]); contradiction.
  - exact Hfuel.
Qed.

(** C1. The list [findVariables] returns holds no identifier twice, whatever
    the session answers and wherever the walk starts; and over a fixed
    address space every variable reachable from the root, by one path or by
    several, occurs in it exactly once. *)
Theorem findVariables_no_duplicates fuel session root t variables t' :
  findVariables fuel session root t = Returned variables t' ->
  NoDup variables /\
  (forall id, id ∈ variables -> count_occ string_dec variables id = 1) /\
  (forall snapshot id,
      fixed_address_space session snapshot ->
      reachable snapshot root id ->
      count_occ string_dec variables id = 1).
Proof.
  intros Hrun. pose proof (findVariables_NoDup _ _ _ _ _ _ Hrun) as Hnd.
  assert (Hocc : forall id, id ∈ variables ->
                            count_occ string_dec variables id = 1).
  { intros id Hid. apply NoDup_count_occ'; [apply NoDup_ListNoDup, Hnd|].
    apply list_elem_of_In, Hid. }
  repeat split; [exact Hnd | exact Hocc |].
  intros snapshot id Hfix Hreach. apply Hocc.
  eapply findVariables_complete; eauto.
Qed.

Lemma findVariables_no_duplicates_witness :
  findVariables 3 diamond_session RootFolder [] =
    Returned ["ns=1;i=1"; "ns=1;i=2"]
             [CallBrowse RootFolder; CallBrowse (ns1 10); CallBrowse (ns1 11)] /\
  NoDup ["ns=1;i=1"; "ns=1;i=2"] /\
  (forall id, id ∈ ["ns=1;i=1"; "ns=1;i=2"] ->
              count_occ string_dec ["ns=1;i=1"; "ns=1;i=2"] id = 1) /\
  (forall snapshot id,
      fixed_address_space diamond_session snapshot ->
      reachable snapshot RootFolder id ->
      count_occ string_dec ["ns=1;i=1"; "ns=1;i=2"] id = 1).
Proof.
  split; [reflexivity|].
  apply (findVariables_no_duplicates 3 diamond_session RootFolder [] _
           [CallBrowse RootFolder; CallBrowse (ns1 10); CallBrowse (ns1 11)]).
  reflexivity.
Defined.

(** In the diamond, variable 1 is reachable through both folders. *)
Example diamond_two_paths :
  reachable diamond_space (ns1 10) "ns=1;i=1" /\
  reachable diamond_space (ns1 11) "ns=1;i=1" /\
  reachable diamond_space RootFolder "ns=1;i=1".
Proof.
  assert (H10 : reachable diamond_space (ns1 10) "ns=1;i=1").
  { apply (reach_variable diamond_space (ns1 10) _
             (ref NodeClass_Variable (ns1 1)) eq_refl); [left|]; reflexivity. }
  assert (H11 : reachable diamond_space (ns1 11) "ns=1;i=1").
  { apply (reach_variable diamond_space (ns1 11) _
             (ref NodeClass_Variable (ns1 1)) eq_refl); [left|]; reflexivity. }
  repeat split; [exact H10 | exact H11 |].
  apply (reach_object diamond_space RootFolder _
           (ref NodeClass_Object (ns1 10)) _ eq_refl); [left| |exact H10];
    reflexivity.
Qed.

(** C9. Over a fixed address space discovery is deterministic: two runs from
    the same root that return, on whatever sessions, at whatever point of
    their histories and with whatever recursion budgets, return the same
    list and hence the same set of identifiers; and once one run has
    returned, every run with at least its budget returns too. *)
Theorem findVariables_deterministic snapshot session1 session2
    fuel1 fuel2 root t1 t2 variables1 variables2 t1' t2' :
  fixed_address_space session1 snapshot ->
  fixed_address_space session2 snapshot ->
  findVariables fuel1 session1 root t1 = Returned variables1 t1' ->
  findVariables fuel2 session2 root t2 = Returned variables2 t2' ->
  variables1 = variables2 /\
  (list_to_set variables1 : gset string) = list_to_set variables2 /\
  (forall fuel u, fuel1 <= fuel ->
     exists u', findVariables fuel session2 root u = Returned variables1 u').
Proof.
  intros Hfix1 Hfix2 Hrun1 Hrun2.
  assert (Heq : variables1 = variables2).
  { destruct (Nat.le_ge_cases fuel1 fuel2) as [Hle | Hge].
    - destruct (findVariables_transfer snapshot _ _ Hfix1 Hfix2
                  _ _ _ _ _ _ Hrun1 Hle t2) as [u' Hu].
      congruence.
    - destruct (findVariables_transfer snapshot _ _ Hfix2 Hfix1
                  _ _ _ _ _ _ Hrun2 Hge t1) as [u' Hu].
      congruence. }
  repeat split; [exact Heq | now rewrite Heq |].
  intros fuel u Hle.
  exact (findVariables_transfer snapshot _ _ Hfix1 Hfix2 _ _ _ _ _ _ Hrun1 Hle u).
Qed.

Lemma findVariables_deterministic_witness :
  fixed_address_space diamond_session diamond_space /\
  fixed_address_space broken_session diamond_space /\
  ["ns=1;i=1"; "ns=1;i=2"] = ["ns=1;i=1"; "ns=1;i=2"] /\
  (list_to_set ["ns=1;i=1"; "ns=1;i=2"] : gset string) =
    list_to_set ["ns=1;i=1"; "ns=1;i=2"] /\
  (forall fuel u, 3 <= fuel ->
     exists u', findVariables fuel broken_session RootFolder u =
                Returned ["ns=1;i=1"; "ns=1;i=2"] u').
Proof.
  assert (H1 : fixed_address_space diamond_session diamond_space)
    by (intros t n; reflexivity).
  assert (H2 : fixed_address_space broken_session diamond_space)
    by (intros t n; reflexivity).
  split; [exact H1|]. split; [exact H2|].
  exact (findVariables_deterministic diamond_space diamond_session broken_session
           3 7 RootFolder [] [CallReadVariableValue "ns=1;i=1"]
           ["ns=1;i=1"; "ns=1;i=2"] ["ns=1;i=1"; "ns=1;i=2"] _ _
           H1 H2 eq_refl eq_refl).
Defined.

(* ===================================================================== *)
(** * Type resolution *)
(* ===================================================================== *)

Lemma getVariableType_eq session id t :
  getVariableType session id t =
  match getBuiltInDataType session t id with
  | Resolved dt =>
      Returned {| name := switch_name dt "String";
                  coerce := switch_coerce dt (fun val => Normal val) |}
               (t ++ [CallGetBuiltInDataType id])%list
  | Rejected e => Thrown e (t ++ [CallGetBuiltInDataType id])%list
  end.
Proof.
  unfold getVariableType, bind, await.
  destruct (getBuiltInDataType session t id); reflexivity.
Qed.

(** Both [switch] statements have the same labels. *)
Lemma same_labels dt :
  dt ∈ map fst name_arms <-> dt ∈ map fst coerce_arms.
Proof.
  rewrite !list_elem_of_In. simpl. intuition (subst; auto 20).
Qed.

(** C5. A type tag that is no label of the table is given the name
    ['String'] and the identity as coercion. *)
Theorem unmapped_type_defaults session id t dt :
  getBuiltInDataType session t id = Resolved dt ->
  dt ∉ map fst name_arms ->
  exists d,
    getVariableType session id t =
      Returned d (t ++ [CallGetBuiltInDataType id])%list /\
    name d = "String" /\
    forall v, coerce d v = Normal v.
Proof.
  intros Hdt Hnot. rewrite getVariableType_eq, Hdt.
  eexists. split; [reflexivity|].
  destruct dt; simpl;
    try (split; [reflexivity | intros v; reflexivity]);
    exfalso; apply Hnot, list_elem_of_In; simpl; auto 20.
Qed.

Lemma unmapped_type_defaults_witness :
  getBuiltInDataType int64_session [] "ns=1;i=1" = Resolved DataType_Int64 /\
  (DataType_Int64 ∉ map fst name_arms) /\
  (exists d,
      getVariableType int64_session "ns=1;i=1" [] =
        Returned d [CallGetBuiltInDataType "ns=1;i=1"] /\
      name d = "String" /\
      forall v, coerce d v = Normal v).
Proof.
  assert (Hnot : DataType_Int64 ∉ map fst name_arms).
  { intros H. apply list_elem_of_In in H. simpl in H.
    repeat (destruct H as [H|H]; [discriminate|]). exact H. }
  split; [reflexivity|]. split; [exact Hnot|].
  exact (unmapped_type_defaults int64_session "ns=1;i=1" [] DataType_Int64
           eq_refl Hnot).
Defined.

(** C6. The label [DataType.UInt32] occurs twice in the first [switch]; no
    discriminant ever selects the second of the two arms, and a [UInt32]
    variable is named ['UInt32']. *)
Theorem second_UInt32_arm_unreachable :
  name_arms !! 10 = Some (DataType_UInt32, "UInt32") /\
  name_arms !! 11 = Some (DataType_UInt32, "UInt64") /\
  length (filter (fun arm => DataType_value (fst arm) = DataType_value DataType_UInt32)
                 name_arms) = 2 /\
  (forall dt, select_arm name_arms dt <> Some 11) /\
  (forall session id t,
      getBuiltInDataType session t id = Resolved DataType_UInt32 ->
      exists d,
        getVariableType session id t =
          Returned d (t ++ [CallGetBuiltInDataType id])%list /\
        name d = "UInt32").
Proof.
  split; [reflexivity|]. split; [reflexivity|]. split; [reflexivity|]. split.
  - intros dt. destruct dt; simpl; discriminate.
  - intros session id t Hdt. rewrite getVariableType_eq, Hdt.
    eexists. split; reflexivity.
Qed.

(** C7. The coercions of the spec's examples: ["true"] becomes [true] for a
    Boolean variable, ["42"] becomes [42] for a variable of an integer type
    and [7] becomes ["7"] for a String or LocalizedText variable. *)
Theorem coerce_examples session id t dt d t' :
  getBuiltInDataType session t id = Resolved dt ->
  getVariableType session id t = Returned d t' ->
  (dt = DataType_Boolean -> coerce d (JStr "true") = Normal (JBool true)) /\
  (dt ∈ [DataType_SByte; DataType_Byte; DataType_Int16; DataType_UInt16;
         DataType_Int32; DataType_UInt32] ->
   coerce d (JStr "42") = Normal (JNum 42%float)) /\
  (dt ∈ [DataType_String; DataType_LocalizedText] ->
   coerce d (JNum 7%float) = Normal (JStr "7")).
Proof.
  intros Hdt Hrun. rewrite getVariableType_eq, Hdt in Hrun.
  injection Hrun as <- _. simpl. repeat split.
  - intros ->. reflexivity.
  - intros Hin. apply list_elem_of_In in Hin. simpl in Hin.
    repeat (destruct Hin as [<- | Hin]; [vm_compute; reflexivity|]).
    contradiction.
  - intros Hin. apply list_elem_of_In in Hin. simpl in Hin.
    repeat (destruct Hin as [<- | Hin]; [vm_compute; reflexivity|]).
    contradiction.
Qed.

Lemma coerce_examples_witness :
  getBuiltInDataType diamond_session [] "ns=1;i=2" = Resolved DataType_Boolean /\
  getVariableType diamond_session "ns=1;i=2" [] =
    Returned {| name := "Boolean"; coerce := Boolean |}
             [CallGetBuiltInDataType "ns=1;i=2"] /\
  (DataType_Boolean = DataType_Boolean ->
   Boolean (JStr "true") = Normal (JBool true)) /\
  (DataType_Boolean ∈ [DataType_SByte; DataType_Byte; DataType_Int16;
                       DataType_UInt16; DataType_Int32; DataType_UInt32] ->
   Boolean (JStr "42") = Normal (JNum 42%float)) /\
  (DataType_Boolean ∈ [DataType_String; DataType_LocalizedText] ->
   Boolean (JNum 7%float) = Normal (JStr "7")).
Proof.
  split; [reflexivity|]. split; [reflexivity|].
  exact (coerce_examples diamond_session "ns=1;i=2" [] DataType_Boolean
           {| name := "Boolean"; coerce := Boolean |} _ eq_refl eq_refl).
Defined.

(** The three examples on the conversions themselves. *)
Example Boolean_true : Boolean (JStr "true") = Normal (JBool true).
Proof. reflexivity. Qed.

Example Number_42 : Number (JStr "42") = Normal (JNum 42%float).
Proof. vm_compute. reflexivity. Qed.

Example String_7 : String_ (JNum 7%float) = Normal (JStr "7").
Proof. vm_compute. reflexivity. Qed.

(** Coercion is conversion, not validation. *)
Example Number_not_a_number : Number (JStr "abc") = Normal (JNum nan).
Proof. vm_compute. reflexivity. Qed.

Example Boolean_false_string :
  Boolean (JStr "false") = Normal (JBool true).
Proof. reflexivity. Qed.

Lemma second_UInt32_arm_unreachable_witness :
  getBuiltInDataType
    (Build_Session (browse diamond_session)
                   (fun _ _ => Resolved DataType_UInt32)
                   (readVariableValue diamond_session)
                   (write diamond_session)) [] "ns=1;i=1" =
    Resolved DataType_UInt32 /\
  (exists d,
      getVariableType
        (Build_Session (browse diamond_session)
                       (fun _ _ => Resolved DataType_UInt32)
                       (readVariableValue diamond_session)
                       (write diamond_session)) "ns=1;i=1" [] =
        Returned d [CallGetBuiltInDataType "ns=1;i=1"] /\
      name d = "UInt32").
Proof.
  split; [reflexivity|].
  exact (proj2 (proj2 (proj2 (proj2 second_UInt32_arm_unreachable)))
           (Build_Session (browse diamond_session)
                          (fun _ _ => Resolved DataType_UInt32)
                          (readVariableValue diamond_session)
                          (write diamond_session)) "ns=1;i=1" [] eq_refl).
Defined.

(* ===================================================================== *)
(** * The type index *)
(* ===================================================================== *)

Lemma get_own variableTypes id d :
  own variableTypes !! id = Some d -> get variableTypes id = PDescriptor d.
Proof. unfold get. intros ->. reflexivity. Qed.

Lemma object_prototype_get_undefined id :
  id ∉ object_prototype_names -> object_prototype_get id = PUndefined.
Proof.
  intros Hnot. unfold object_prototype_get.
  destruct (existsb _ _) eqn:Hex; [|reflexivity].
  exfalso. apply Hnot. apply existsb_exists in Hex as (k & Hk & Heq).
  apply String.eqb_eq in Heq. subst. apply list_elem_of_In, Hk.
Qed.

(** Under the original prototype, a name that [Object.prototype] does not
    define is found exactly when it is an own property. *)
Lemma get_missing variableTypes id :
  proto variableTypes = None ->
  id ∉ object_prototype_names ->
  own variableTypes !! id = None ->
  get variableTypes id = PUndefined.
Proof.
  intros Hproto Hnot Hown. unfold get. rewrite Hown, Hproto.
  destruct (String.eqb id "__proto__") eqn:Heq.
  - apply String.eqb_eq in Heq. subst. exfalso. apply Hnot.
    apply list_elem_of_In. simpl. auto 20.
  - apply object_prototype_get_undefined, Hnot.
Qed.

(** The printed form of a node identifier always starts with [ns=]. *)
Lemma NodeId_toString_prefix n :
  exists rest, NodeId_toString n = String "n" (String "s" (String "=" rest)).
Proof. unfold NodeId_toString. simpl. eexists. reflexivity. Qed.

Lemma NodeId_toString_not_proto n : NodeId_toString n <> "__proto__".
Proof. destruct (NodeId_toString_prefix n) as [rest ->]. discriminate. Qed.

Lemma findVariables_ids session : forall fuel n t variables t',
  findVariables fuel session n t = Returned variables t' ->
  forall id, id ∈ variables -> exists m, id = NodeId_toString m.
Proof.
  induction fuel as [|fuel' IH]; intros n t variables t' Hrun; [discriminate|].
  apply findVariables_returned in Hrun as (f & refs & [= <-] & _ & Hloop).
  revert Hloop.
  apply (for_of_invariant
           (fun s => forall id, id ∈ s -> exists m, id = NodeId_toString m)).
  - intros s r u s' u' _ Hs Hbody id Hid.
    apply bind_returned in Hbody as (cv & u1 & Hf & Hret).
    apply ret_returned in Hret as [-> _].
    apply elem_of_merge in Hid as [Hid | Hid]; [auto|].
    unfold child_variables in Hf.
    destruct (N.eqb _ _); [eapply IH; eauto|].
    destruct (N.eqb _ _); apply ret_returned in Hf as [-> _].
    + apply list_elem_of_singleton in Hid as ->. eauto.
    + inversion Hid.
  - intros id Hid. inversion Hid.
Qed.

(** ** What the start-up code leaves in the trace *)

Lemma type_queries_app a b :
  type_queries (a ++ b) = (type_queries a ++ type_queries b)%list.
Proof.
  induction a as [|c a IH]; [reflexivity|].
  destruct c; simpl; rewrite IH; reflexivity.
Qed.

Lemma type_queries_map l : type_queries (map CallGetBuiltInDataType l) = l.
Proof. induction l as [|x l IH]; simpl; [|rewrite IH]; reflexivity. Qed.

Lemma for_of_trace {A S} (Q : Trace -> Prop) (body : S -> A -> M S) l :
  Q [] ->
  (forall a b, Q a -> Q b -> Q (a ++ b)%list) ->
  (forall s x t s' t', x ∈ l -> body s x t = Returned s' t' ->
     exists c, t' = (t ++ c)%list /\ Q c) ->
  forall acc t r t',
    for_of l body acc t = Returned r t' ->
    exists c, t' = (t ++ c)%list /\ Q c.
Proof.
  intros Hnil Happ. induction l as [|x l IH]; intros Hbody acc t r t' Hrun.
  - apply ret_returned in Hrun as [_ ->]. exists []. rewrite app_nil_r. auto.
  - simpl in Hrun. apply bind_returned in Hrun as (s1 & t1 & Hx & Hrest).
    destruct (Hbody _ _ _ _ _ ltac:(left) Hx) as (c1 & -> & Hc1).
    destruct (IH (fun s y u s' u' Hy => Hbody s y u s' u' ltac:(right; exact Hy))
                 _ _ _ _ Hrest) as (c2 & -> & Hc2).
    exists (c1 ++ c2)%list. rewrite app_assoc. auto.
Qed.

(** Discovery only browses. *)
Lemma findVariables_trace session : forall fuel n t variables t',
  findVariables fuel session n t = Returned variables t' ->
  exists calls, t' = (t ++ calls)%list /\ type_queries calls = [].
Proof.
  induction fuel as [|fuel' IH]; intros n t variables t' Hrun; [discriminate|].
  apply findVariables_returned in Hrun as (f & refs & [= <-] & _ & Hloop).
  apply (for_of_trace (fun c => type_queries c = [])) in Hloop.
  - destruct Hloop as (c & -> & Hc). exists (CallBrowse n :: c).
    rewrite <- app_assoc. auto.
  - reflexivity.
  - intros a b Ha Hb. rewrite type_queries_app, Ha, Hb. reflexivity.
  - intros s r u s' u' _ Hbody.
    apply bind_returned in Hbody as (cv & u1 & Hf & Hret).
    apply ret_returned in Hret as [_ ->].
    unfold child_variables in Hf.
    destruct (N.eqb _ _); [eapply IH; eauto|].
    destruct (N.eqb _ _); apply ret_returned in Hf as [_ ->];
      exists []; rewrite app_nil_r; auto.
Qed.

Lemma index_body_returned session variableTypes id t variableTypes' t' :
  index_body session variableTypes id t = Returned variableTypes' t' ->
  exists dt,
    getBuiltInDataType session t id = Resolved dt /\
    variableTypes' = set variableTypes id
                       {| name := switch_name dt "String";
                          coerce := switch_coerce dt (fun val => Normal val) |} /\
    t' = (t ++ [CallGetBuiltInDataType id])%list.
Proof.
  unfold index_body. intros H. apply bind_returned in H as (d & t1 & Hd & Hret).
  apply ret_returned in Hret as [-> ->].
  rewrite getVariableType_eq in Hd.
  destruct (getBuiltInDataType session t id) as [dt|e]; [|discriminate].
  injection Hd as <- <-. eauto.
Qed.

(** The loop of [main] asks for the type of each element of [variables]
    once, in order, and makes no other call. *)
Lemma index_loop_trace session l : forall variableTypes t r t',
  for_of l (index_body session) variableTypes t = Returned r t' ->
  t' = (t ++ map CallGetBuiltInDataType l)%list.
Proof.
  induction l as [|id l IH]; intros variableTypes t r t' Hrun.
  - apply ret_returned in Hrun as [_ ->]. simpl. rewrite app_nil_r. reflexivity.
  - simpl in Hrun. apply bind_returned in Hrun as (s1 & t1 & Hx & Hrest).
    apply index_body_returned in Hx as (dt & _ & _ & ->).
    apply IH in Hrest as ->. rewrite <- app_assoc. reflexivity.
Qed.

(** As long as no identifier is [__proto__], every assignment of the loop
    creates or overwrites an own property and the prototype stays. *)
Lemma index_loop_dom session l : forall variableTypes t r t',
  Forall (fun id => id <> "__proto__") l ->
  for_of l (index_body session) variableTypes t = Returned r t' ->
  proto r = proto variableTypes /\
  dom (own r) = dom (own variableTypes) ∪ list_to_set l.
Proof.
  induction l as [|id l IH]; intros variableTypes t r t' Hl Hrun.
  - apply ret_returned in Hrun as [-> _]. simpl. split; [reflexivity|set_solver].
  - simpl in Hrun. apply bind_returned in Hrun as (s1 & t1 & Hx & Hrest).
    apply index_body_returned in Hx as (dt & _ & -> & ->).
    inversion Hl as [|? ? Hid Hl']; subst.
    destruct (IH _ _ _ _ Hl' Hrest) as [Hp Hd]. rewrite Hp, Hd.
    unfold set. apply String.eqb_neq in Hid. rewrite Hid. simpl.
    split; [reflexivity|]. rewrite dom_insert_L. set_solver.
Qed.

(** Every descriptor in the index was computed from an answer of the
    session about that identifier. *)
Lemma index_loop_origin session l variableTypes t r t' :
  Forall (fun id => id <> "__proto__") l ->
  own variableTypes = ∅ ->
  for_of l (index_body session) variableTypes t = Returned r t' ->
  forall id d, own r !! id = Some d ->
    exists u dt, getBuiltInDataType session u id = Resolved dt /\
                 d = {| name := switch_name dt "String";
                        coerce := switch_coerce dt (fun val => Normal val) |}.
Proof.
  intros Hl Hempty. 
  apply (for_of_invariant (fun s => forall id d, own s !! id = Some d ->
    exists u dt, getBuiltInDataType session u id = Resolved dt /\
                 d = {| name := switch_name dt "String";
                        coerce := switch_coerce dt (fun val => Normal val) |})).
  - intros s x u s' u' Hx Hs Hbody id d Hlook.
    apply index_body_returned in Hbody as (dt & Hdt & -> & _).
    rewrite Forall_forall in Hl. specialize (Hl x Hx).
    unfold set in Hlook. apply String.eqb_neq in Hl. rewrite Hl in Hlook.
    simpl in Hlook. destruct (decide (x = id)) as [-> | Hne].
    + rewrite lookup_insert_eq in Hlook. injection Hlook as <-. eauto.
    + rewrite lookup_insert_ne in Hlook by exact Hne. eauto.
  - intros id d. rewrite Hempty, lookup_empty. discriminate.
Qed.

Lemma startup_returned fuel session t variables variableTypes t' :
  startup fuel session t = Returned (variables, variableTypes) t' ->
  exists t1,
    findVariables fuel session RootFolder t = Returned variables t1 /\
    for_of variables (index_body session) empty_object t1 =
      Returned variableTypes t'.
Proof.
  unfold startup. intros H.
  apply bind_returned in H as (vs & t1 & Hfind & H).
  apply bind_returned in H as (vt & t2 & Hloop & Hret).
  apply ret_returned in Hret as [[= -> ->] ->]. eauto.
Qed.

Lemma startup_ids_not_proto fuel session t variables t' :
  findVariables fuel session RootFolder t = Returned variables t' ->
  Forall (fun id => id <> "__proto__") variables.
Proof.
  intros Hfind. apply Forall_forall. intros id Hid.
  destruct (findVariables_ids _ _ _ _ _ _ Hfind id Hid) as [m ->].
  apply NodeId_toString_not_proto.
Qed.

(** The index keeps the prototype it was created with and its keys are the
    discovered identifiers. *)
Lemma startup_index fuel session t variables variableTypes t' :
  startup fuel session t = Returned (variables, variableTypes) t' ->
  proto variableTypes = None /\
  dom (own variableTypes) = list_to_set variables.
Proof.
  intros H. apply startup_returned in H as (t1 & Hfind & Hloop).
  apply startup_ids_not_proto in Hfind.
  destruct (index_loop_dom _ _ _ _ _ _ Hfind Hloop) as [Hp Hd].
  split; [exact Hp|]. rewrite Hd. simpl. rewrite dom_empty_L. set_solver.
Qed.

(** Every discovered identifier is an own property of the index. *)
Lemma startup_keys fuel session t variables variableTypes t' :
  startup fuel session t = Returned (variables, variableTypes) t' ->
  forall id, id ∈ variables ->
    exists d, own variableTypes !! id = Some d /\
              get variableTypes id = PDescriptor d.
Proof.
  intros Hstart id Hid. destruct (startup_index _ _ _ _ _ _ Hstart) as [_ Hdom].
  assert (Hin : id ∈ dom (own variableTypes)) by (rewrite Hdom; set_solver).
  apply elem_of_dom in Hin as [d Hd]. exists d. split; [exact Hd|].
  apply get_own, Hd.
Qed.

(** C8. When the start-up code has run, every discovered identifier is a key
    of [variableTypes] (and reading it yields its descriptor), the index has
    no other key, and the calls made were the browses of the discovery
    followed by one type query per discovered identifier: no identifier was
    resolved twice. *)
Theorem startup_type_coverage fuel session t variables variableTypes t' :
  startup fuel session t = Returned (variables, variableTypes) t' ->
  NoDup variables /\
  (forall id, id ∈ variables ->
     exists d, own variableTypes !! id = Some d /\
               get variableTypes id = PDescriptor d) /\
  dom (own variableTypes) = list_to_set variables /\
  (exists calls,
      t' = t ++ calls /\
      type_queries calls = variables /\
      length (type_queries calls) = length variables /\
      forall id, id ∈ variables ->
                 count_occ string_dec (type_queries calls) id = 1).
Proof.
  intros Hstart. destruct (startup_index _ _ _ _ _ _ Hstart) as [_ Hdom].
  pose proof (startup_keys _ _ _ _ _ _ Hstart) as Hkeys.
  apply startup_returned in Hstart as (t1 & Hfind & Hloop).
  pose proof (findVariables_NoDup _ _ _ _ _ _ Hfind) as Hnd.
  split; [exact Hnd|]. split; [|split; [exact Hdom|]].
  - exact Hkeys.
  - apply findVariables_trace in Hfind as (browses & -> & Hb).
    apply index_loop_trace in Hloop as ->.
    exists (browses ++ map CallGetBuiltInDataType variables).
    rewrite type_queries_app, Hb, type_queries_map. simpl.
    repeat split; [symmetry; apply app_assoc|].
    intros id Hid. apply NoDup_count_occ'; [apply NoDup_ListNoDup, Hnd|].
    apply list_elem_of_In, Hid.
Qed.

Lemma startup_type_coverage_witness :
  startup 3 diamond_session [] =
    Returned (["ns=1;i=1"; "ns=1;i=2"], diamond_index)
             [CallBrowse RootFolder; CallBrowse (ns1 10); CallBrowse (ns1 11);
              CallGetBuiltInDataType "ns=1;i=1";
              CallGetBuiltInDataType "ns=1;i=2"] /\
  NoDup ["ns=1;i=1"; "ns=1;i=2"] /\
  (forall id, id ∈ ["ns=1;i=1"; "ns=1;i=2"] ->
     exists d, own diamond_index !! id = Some d /\
               get diamond_index id = PDescriptor d) /\
  dom (own diamond_index) = list_to_set ["ns=1;i=1"; "ns=1;i=2"] /\
  (exists calls,
      [CallBrowse RootFolder; CallBrowse (ns1 10); CallBrowse (ns1 11);
       CallGetBuiltInDataType "ns=1;i=1";
       CallGetBuiltInDataType "ns=1;i=2"] = [] ++ calls /\
      type_queries calls = ["ns=1;i=1"; "ns=1;i=2"] /\
      length (type_queries calls) = length ["ns=1;i=1"; "ns=1;i=2"] /\
      forall id, id ∈ ["ns=1;i=1"; "ns=1;i=2"] ->
                 count_occ string_dec (type_queries calls) id = 1).
Proof.
  assert (Hrun : startup 3 diamond_session [] =
    Returned (["ns=1;i=1"; "ns=1;i=2"], diamond_index)
             [CallBrowse RootFolder; CallBrowse (ns1 10); CallBrowse (ns1 11);
              CallGetBuiltInDataType "ns=1;i=1";
              CallGetBuiltInDataType "ns=1;i=2"]) by reflexivity.
  split; [exact Hrun|].
  exact (startup_type_coverage 3 diamond_session [] _ _ _ Hrun).
Defined.

(* ===================================================================== *)
(** * The gateway *)
(* ===================================================================== *)

(** ** GET /:nodeId *)

Lemma get_nodeId_key session variableTypes id d t :
  own variableTypes !! id = Some d ->
  get_nodeId session variableTypes id t =
  match readVariableValue session t id with
  | Resolved val =>
      Returned {| statusCode := 200; body := BodyJson (dv_value val) |}
               (t ++ [CallReadVariableValue id])
  | Rejected e =>
      Returned {| statusCode := 500; body := BodyError e |}
               (t ++ [CallReadVariableValue id])
  end.
Proof.
  intros Hown. unfold get_nodeId. rewrite (get_own _ _ _ Hown). simpl.
  unfold try_catch, bind, await.
  destruct (readVariableValue session t id); reflexivity.
Qed.

Lemma get_nodeId_undefined session variableTypes id t :
  get variableTypes id = PUndefined ->
  get_nodeId session variableTypes id t =
  Returned {| statusCode := 404; body := BodyText "Not Found" |} t.
Proof. unfold get_nodeId. intros ->. reflexivity. Qed.

(** A read that fails is answered with 500 and the error. *)
Lemma get_nodeId_read_rejected session variableTypes id d t e :
  own variableTypes !! id = Some d ->
  readVariableValue session t id = Rejected e ->
  get_nodeId session variableTypes id t =
  Returned {| statusCode := 500; body := BodyError e |}
           (t ++ [CallReadVariableValue id]).
Proof.
  intros Hown Hread. rewrite (get_nodeId_key _ _ _ _ _ Hown), Hread.
  reflexivity.
Qed.

(** ** PUT /:nodeId *)

Lemma console_log_normal raw s t :
  ToString raw = Normal s -> console_log raw t = Returned tt t.
Proof. unfold console_log, bind, eval. intros ->. reflexivity. Qed.

(** A body that cannot be converted to a string stops the handler at its
    first statement. *)
Lemma put_nodeId_unloggable session variableTypes id raw m t :
  ToString raw = ThrowTypeError m ->
  put_nodeId session variableTypes id raw t =
  Thrown {| err_name := "TypeError"; err_message := m |} t.
Proof.
  intros Hraw. unfold put_nodeId, bind at 1. unfold console_log, bind, eval.
  rewrite Hraw. reflexivity.
Qed.

Lemma put_nodeId_key session variableTypes id d raw s coerced t :
  own variableTypes !! id = Some d ->
  ToString raw = Normal s ->
  coerce d raw = Normal coerced ->
  put_nodeId session variableTypes id raw t =
  let w := {| wv_nodeId := id; wv_attributeId := AttributeIds_Value;
              wv_dataType := name d; wv_value := coerced |} in
  match write session t w with
  | Resolved st =>
      Returned (if N.eqb (value st) 0
                then {| statusCode := 204; body := NoBody |}
                else {| statusCode := 400; body := BodyText (description st) |})
               (t ++ [CallWrite w])
  | Rejected e => Thrown e (t ++ [CallWrite w])
  end.
Proof.
  intros Hown Hraw Hco. unfold put_nodeId, bind at 1.
  rewrite (console_log_normal _ _ _ Hraw), (get_own _ _ _ Hown). simpl.
  unfold bind, eval, await. rewrite Hco.
  destruct (write session t _) as [st|e]; [|reflexivity].
  destruct (N.eqb (value st) 0); reflexivity.
Qed.

(** Whatever converts to a string converts to a number. *)
Lemma ToNumber_normal v s :
  ToString v = Normal s -> exists x, ToNumber v = Normal x.
Proof.
  intros Hs. destruct v; try (eexists; reflexivity);
    unfold ToNumber; rewrite Hs; eexists; reflexivity.
Qed.

(** The second [switch] leaves one of four functions in [coerce]. *)
Lemma switch_coerce_cases dt initial :
  switch_coerce dt initial = Boolean \/ switch_coerce dt initial = Number \/
  switch_coerce dt initial = String_ \/ switch_coerce dt initial = initial.
Proof.
  destruct dt;
    first [ left; reflexivity
          | right; left; reflexivity
          | right; right; left; reflexivity
          | right; right; right; reflexivity ].
Qed.

(** The coercions of [getVariableType] accept every value that converts to
    a string. *)
Lemma switch_coerce_normal dt v s :
  ToString v = Normal s ->
  exists w, switch_coerce dt (fun val => Normal val) v = Normal w.
Proof.
  intros Hs. destruct (ToNumber_normal v s Hs) as [x Hx].
  destruct (switch_coerce_cases dt (fun val => Normal val))
    as [-> | [-> | [-> | ->]]];
    unfold Boolean, Number, String_; rewrite ?Hx, ?Hs; eexists; reflexivity.
Qed.

(** The descriptors of the index built at start-up come from
    [getVariableType]. *)
Lemma startup_descriptor fuel session t variables variableTypes t' id d :
  startup fuel session t = Returned (variables, variableTypes) t' ->
  own variableTypes !! id = Some d ->
  exists dt, d = {| name := switch_name dt "String";
                    coerce := switch_coerce dt (fun val => Normal val) |}.
Proof.
  intros Hstart Hown.
  apply startup_returned in Hstart as (t2 & Hfind & Hloop).
  apply startup_ids_not_proto in Hfind.
  destruct (index_loop_origin session variables empty_object _ _ _
              Hfind eq_refl Hloop id d Hown) as (u & dt & _ & ->).
  exists dt. reflexivity.
Qed.

(** A write that fails is not caught: the handler's promise rejects with
    the error of the session and no response has been sent. *)
Lemma put_nodeId_write_rejected session variableTypes id d raw s coerced t e :
  own variableTypes !! id = Some d ->
  ToString raw = Normal s ->
  coerce d raw = Normal coerced ->
  write session t {| wv_nodeId := id; wv_attributeId := AttributeIds_Value;
                     wv_dataType := name d; wv_value := coerced |} =
    Rejected e ->
  put_nodeId session variableTypes id raw t =
  Thrown e (t ++ [CallWrite {| wv_nodeId := id;
                                wv_attributeId := AttributeIds_Value;
                                wv_dataType := name d;
                                wv_value := coerced |}]).
Proof.
  intros Hown Hraw Hco Hw.
  rewrite (put_nodeId_key _ _ _ _ _ _ _ _ Hown Hraw Hco). simpl.
  rewrite Hw. reflexivity.
Qed.

(** C3, at the failing input. With the connection lost, [PUT /ns=1;i=1] on a
    known variable ends in a rejection that leaves the handler: the awaited
    write is not inside any [try] block. The GET handler on the same session
    answers 500. *)
Theorem put_write_rejection_escapes :
  own diamond_index !! "ns=1;i=1" = Some {| name := "Int16"; coerce := Number |} /\
  put_nodeId broken_session diamond_index "ns=1;i=1" (JNum 123%float) [] =
    Thrown timeout
           [CallWrite {| wv_nodeId := "ns=1;i=1";
                         wv_attributeId := 13;
                         wv_dataType := "Int16";
                         wv_value := JNum 123%float |}] /\
  get_nodeId broken_session diamond_index "ns=1;i=1" [] =
    Returned {| statusCode := 500; body := BodyError timeout |}
             [CallReadVariableValue "ns=1;i=1"].
Proof. repeat split; vm_compute; reflexivity. Qed.

(** C4, as the spec has it, fails for a body that cannot be converted. The
    JSON body [{"toString": 1}] is an object whose own [toString] is not a
    function: [Number(raw)], the coercion of the [UInt16] variable, has no
    value for it but throws a [TypeError]; and the handler's first
    statement, which logs the body, throws that error before the coercion is
    reached. The handler ends without a write and without a response,
    although the identifier is a key of the index. *)
Lemma put_unprintable_body_counterexample :
  startup 3 diamond_session [] =
    Returned (["ns=1;i=1"; "ns=1;i=2"], diamond_index)
             [CallBrowse RootFolder; CallBrowse (ns1 10); CallBrowse (ns1 11);
              CallGetBuiltInDataType "ns=1;i=1";
              CallGetBuiltInDataType "ns=1;i=2"] /\
  own diamond_index !! "ns=1;i=1" = Some {| name := "Int16"; coerce := Number |} /\
  Number (JObj [("toString", JNum 1%float)]) =
    ThrowTypeError "Cannot convert object to primitive value" /\
  put_nodeId diamond_session diamond_index "ns=1;i=1"
             (JObj [("toString", JNum 1%float)]) [] =
    Thrown {| err_name := "TypeError";
              err_message := "Cannot convert object to primitive value" |} [] /\
  ~ (forall raw, exists r w,
       put_nodeId diamond_session diamond_index "ns=1;i=1" raw [] =
         Returned r [CallWrite w]).
Proof.
  assert (Hput : put_nodeId diamond_session diamond_index "ns=1;i=1"
                   (JObj [("toString", JNum 1%float)]) [] =
                 Thrown {| err_name := "TypeError";
                           err_message :=
                             "Cannot convert object to primitive value" |} [])
    by reflexivity.
  split; [reflexivity|]. split; [reflexivity|]. split; [reflexivity|].
  split; [exact Hput|].
  intros Hclaim.
  destruct (Hclaim (JObj [("toString", JNum 1%float)])) as (r & w & Hr).
  rewrite Hput in Hr. discriminate.
Qed.

(** C4, amended. For a key of the index built at start-up and a body that
    can be converted to a string, the coercion of the descriptor accepts the
    body, and the PUT handler writes the coerced value under the
    descriptor's type name and answers 204 without a body when the status
    value is 0, and otherwise 400 with the status description as body. *)
Theorem put_maps_write_status fuel session t0 variables variableTypes t1
    id d raw s t :
  startup fuel session t0 = Returned (variables, variableTypes) t1 ->
  own variableTypes !! id = Some d ->
  ToString raw = Normal s ->
  exists coerced,
    coerce d raw = Normal coerced /\
    forall st,
      write session t {| wv_nodeId := id; wv_attributeId := AttributeIds_Value;
                         wv_dataType := name d; wv_value := coerced |} =
        Resolved st ->
      put_nodeId session variableTypes id raw t =
      Returned (if N.eqb (value st) 0
                then {| statusCode := 204; body := NoBody |}
                else {| statusCode := 400;
                        body := BodyText (description st) |})
               (t ++ [CallWrite {| wv_nodeId := id;
                                    wv_attributeId := AttributeIds_Value;
                                    wv_dataType := name d;
                                    wv_value := coerced |}]).
Proof.
  intros Hstart Hown Hraw.
  destruct (startup_descriptor _ _ _ _ _ _ _ _ Hstart Hown) as [dt Hd].
  destruct (switch_coerce_normal dt raw s Hraw) as [coerced Hco].
  exists coerced. split; [rewrite Hd; exact Hco|].
  intros st Hw.
  rewrite (put_nodeId_key _ _ _ _ _ _ coerced _ Hown Hraw)
    by (rewrite Hd; exact Hco).
  simpl. rewrite Hw. reflexivity.
Qed.

Lemma put_maps_write_status_witness :
  startup 3 refusing_session [] =
    Returned (["ns=1;i=1"; "ns=1;i=2"], diamond_index)
             [CallBrowse RootFolder; CallBrowse (ns1 10); CallBrowse (ns1 11);
              CallGetBuiltInDataType "ns=1;i=1";
              CallGetBuiltInDataType "ns=1;i=2"] /\
  own diamond_index !! "ns=1;i=1" = Some {| name := "Int16"; coerce := Number |} /\
  ToString (JStr "123") = Normal "123" /\
  (exists coerced,
      Number (JStr "123") = Normal coerced /\
      forall st,
        write refusing_session []
              {| wv_nodeId := "ns=1;i=1"; wv_attributeId := AttributeIds_Value;
                 wv_dataType := "Int16"; wv_value := coerced |} = Resolved st ->
        put_nodeId refusing_session diamond_index "ns=1;i=1" (JStr "123") [] =
        Returned (if N.eqb (value st) 0
                  then {| statusCode := 204; body := NoBody |}
                  else {| statusCode := 400;
                          body := BodyText (description st) |})
                 ([] ++ [CallWrite {| wv_nodeId := "ns=1;i=1";
                                      wv_attributeId := AttributeIds_Value;
                                      wv_dataType := "Int16";
                                      wv_value := coerced |}])).
Proof.
  split; [reflexivity|]. split; [reflexivity|]. split; [reflexivity|].
  exact (put_maps_write_status 3 refusing_session [] _ diamond_index _
           "ns=1;i=1" {| name := "Int16"; coerce := Number |} (JStr "123")
           "123" [] eq_refl eq_refl eq_refl).
Defined.

(** The spec's two examples: a rejected write gives 400 with the
    description, a good status gives 204. *)
Example put_bad_status :
  put_nodeId refusing_session diamond_index "ns=1;i=1" (JNum 123%float) [] =
    Returned {| statusCode := 400; body := BodyText "BadTypeMismatch" |}
             [CallWrite {| wv_nodeId := "ns=1;i=1";
                           wv_attributeId := 13;
                           wv_dataType := "Int16";
                           wv_value := JNum 123%float |}].
Proof. vm_compute. reflexivity. Qed.

Example put_good_status :
  put_nodeId diamond_session diamond_index "ns=1;i=1" (JNum 123%float) [] =
    Returned {| statusCode := 204; body := NoBody |}
             [CallWrite {| wv_nodeId := "ns=1;i=1";
                           wv_attributeId := 13;
                           wv_dataType := "Int16";
                           wv_value := JNum 123%float |}].
Proof. vm_compute. reflexivity. Qed.

(** C2, as the spec has it, fails twice on the diamond server: the name
    [constructor] is no key of the index, yet the handler finds
    [Object.prototype.constructor] under it, reads from the session and
    answers 500; and the 404 for a name that is really unknown carries the
    reason phrase as body. *)
Lemma get_unknown_id_counterexample :
  startup 3 diamond_session [] =
    Returned (["ns=1;i=1"; "ns=1;i=2"], diamond_index)
             [CallBrowse RootFolder; CallBrowse (ns1 10); CallBrowse (ns1 11);
              CallGetBuiltInDataType "ns=1;i=1";
              CallGetBuiltInDataType "ns=1;i=2"] /\
  ~ (forall id,
       own diamond_index !! id = None <->
       responds (get_nodeId diamond_session diamond_index id []) 404) /\
  own diamond_index !! "constructor" = None /\
  get_nodeId diamond_session diamond_index "constructor" [] =
    Returned {| statusCode := 500; body := BodyError unknown_node |}
             [CallReadVariableValue "constructor"] /\
  own diamond_index !! "ns=1;i=99" = None /\
  get_nodeId diamond_session diamond_index "ns=1;i=99" [] =
    Returned {| statusCode := 404; body := BodyText "Not Found" |} [] /\
  BodyText "Not Found" <> NoBody.
Proof.
  assert (Hown : own diamond_index !! "constructor" = None) by reflexivity.
  assert (Hget : get_nodeId diamond_session diamond_index "constructor" [] =
    Returned {| statusCode := 500; body := BodyError unknown_node |}
             [CallReadVariableValue "constructor"]) by reflexivity.
  split; [reflexivity|]. split; [|split; [exact Hown|split; [exact Hget|]]].
  - intros Hclaim. apply Hclaim in Hown as (b & t & Hr).
    rewrite Hget in Hr. discriminate.
  - split; [reflexivity|]. split; [reflexivity|]. discriminate.
Qed.

(** C2, amended. For the index built at start-up and a name that
    [Object.prototype] does not define, [GET /id] answers 404, with the
    reason phrase ["Not Found"] as body and without calling the session,
    exactly when [id] is no key of the index; for a key it reads from the
    session and answers 200 with the value, or 500 with the error when the
    read fails. *)
Theorem get_unknown_id_not_found fuel session t0 variables variableTypes t1 id t :
  startup fuel session t0 = Returned (variables, variableTypes) t1 ->
  id ∉ object_prototype_names ->
  (own variableTypes !! id = None <->
   get_nodeId session variableTypes id t =
     Returned {| statusCode := 404; body := BodyText "Not Found" |} t) /\
  (own variableTypes !! id = None <->
   responds (get_nodeId session variableTypes id t) 404) /\
  (is_Some (own variableTypes !! id) ->
   get_nodeId session variableTypes id t =
   match readVariableValue session t id with
   | Resolved val =>
       Returned {| statusCode := 200; body := BodyJson (dv_value val) |}
                (t ++ [CallReadVariableValue id])
   | Rejected e =>
       Returned {| statusCode := 500; body := BodyError e |}
                (t ++ [CallReadVariableValue id])
   end).
Proof.
  intros Hstart Hid. apply startup_index in Hstart as [Hproto _].
  destruct (own variableTypes !! id) as [d|] eqn:Hown.
  - pose proof (get_nodeId_key session _ _ _ t Hown) as Hkey.
    repeat split; try discriminate; try (intros _; exact Hkey).
    + rewrite Hkey. destruct (readVariableValue session t id); discriminate.
    + rewrite Hkey. intros (b & u & Hr).
      destruct (readVariableValue session t id); discriminate.
  - pose proof (get_nodeId_undefined session _ _ t
                  (get_missing _ _ Hproto Hid Hown)) as Hmiss.
    repeat split; auto.
    + intros _. rewrite Hmiss. eexists _, _. reflexivity.
    + intros [d Hd]. discriminate.
Qed.

Lemma get_unknown_id_not_found_witness :
  startup 3 diamond_session [] =
    Returned (["ns=1;i=1"; "ns=1;i=2"], diamond_index)
             [CallBrowse RootFolder; CallBrowse (ns1 10); CallBrowse (ns1 11);
              CallGetBuiltInDataType "ns=1;i=1";
              CallGetBuiltInDataType "ns=1;i=2"] /\
  ("ns=1;i=99" ∉ object_prototype_names) /\
  (own diamond_index !! "ns=1;i=99" = None <->
   get_nodeId diamond_session diamond_index "ns=1;i=99" [] =
     Returned {| statusCode := 404; body := BodyText "Not Found" |} []) /\
  (own diamond_index !! "ns=1;i=99" = None <->
   responds (get_nodeId diamond_session diamond_index "ns=1;i=99" []) 404) /\
  (is_Some (own diamond_index !! "ns=1;i=99") ->
   get_nodeId diamond_session diamond_index "ns=1;i=99" [] =
   match readVariableValue diamond_session [] "ns=1;i=99" with
   | Resolved val =>
       Returned {| statusCode := 200; body := BodyJson (dv_value val) |}
                ([] ++ [CallReadVariableValue "ns=1;i=99"])
   | Rejected e =>
       Returned {| statusCode := 500; body := BodyError e |}
                ([] ++ [CallReadVariableValue "ns=1;i=99"])
   end).
Proof.
  assert (Hnot : "ns=1;i=99" ∉ object_prototype_names).
  { intros H. apply list_elem_of_In in H. simpl in H.
    repeat (destruct H as [H|H]; [discriminate|]). exact H. }
  split; [reflexivity|]. split; [exact Hnot|].
  exact (get_unknown_id_not_found 3 diamond_session [] _ diamond_index _
           "ns=1;i=99" [] eq_refl Hnot).
Defined.

(** The calls of a PUT to a key of the index: none, or one write to that
    identifier under the type name of its descriptor. *)
Lemma put_nodeId_key_calls session variableTypes id d raw t t' :
  own variableTypes !! id = Some d ->
  trace_of (put_nodeId session variableTypes id raw t) = Some t' ->
  t' = t \/
  exists w, t' = t ++ [CallWrite w] /\ wv_nodeId w = id /\
            wv_attributeId w = AttributeIds_Value /\
            wv_dataType w = name d.
Proof.
  intros Hown. destruct (ToString raw) as [s|m] eqn:Hraw.
  - destruct (coerce d raw) as [coerced|m] eqn:Hco.
    + rewrite (put_nodeId_key _ _ _ _ _ _ _ _ Hown Hraw Hco). simpl.
      intros Ht. right.
      exists {| wv_nodeId := id; wv_attributeId := AttributeIds_Value;
                wv_dataType := name d; wv_value := coerced |}.
      split; [|split; [|split]]; try reflexivity.
      destruct (write session t _); injection Ht as <-; reflexivity.
    + unfold put_nodeId, bind at 1.
      rewrite (console_log_normal _ _ _ Hraw), (get_own _ _ _ Hown). simpl.
      unfold bind, eval. rewrite Hco. simpl. intros [= <-]. left. reflexivity.
  - rewrite (put_nodeId_unloggable _ _ _ _ _ _ Hraw). simpl.
    intros [= <-]. left. reflexivity.
Qed.

(** C10. A variable whose built-in type is [UInt16] gets the name ['Int16'],
    the index built at start-up holds that name for it, and every write a
    PUT to it makes carries [dataType: 'Int16']; such a write is made for
    every body that can be converted to a string. *)
Theorem uint16_written_as_Int16 fuel session t0 variables variableTypes t1 id :
  startup fuel session t0 = Returned (variables, variableTypes) t1 ->
  id ∈ variables ->
  (forall u, getBuiltInDataType session u id = Resolved DataType_UInt16) ->
  (forall u, exists d,
      getVariableType session id u =
        Returned d (u ++ [CallGetBuiltInDataType id]) /\
      name d = "Int16") /\
  (exists d, own variableTypes !! id = Some d /\ name d = "Int16") /\
  (forall raw t t',
      trace_of (put_nodeId session variableTypes id raw t) = Some t' ->
      t' = t \/
      exists w, t' = t ++ [CallWrite w] /\ wv_nodeId w = id /\
                wv_dataType w = "Int16") /\
  (forall raw s t,
      ToString raw = Normal s ->
      exists w,
        trace_of (put_nodeId session variableTypes id raw t) =
          Some (t ++ [CallWrite w]) /\
        wv_nodeId w = id /\
        wv_dataType w = "Int16").
Proof.
  intros Hstart Hid Hdt.
  assert (Hd : exists d, own variableTypes !! id = Some d /\
                         d = {| name := "Int16"; coerce := Number |}).
  { destruct (startup_keys _ _ _ _ _ _ Hstart id Hid) as (d & Hown & _).
    exists d. split; [exact Hown|].
    apply startup_returned in Hstart as (t2 & Hfind & Hloop).
    apply startup_ids_not_proto in Hfind.
    destruct (index_loop_origin session variables empty_object _ _ _
                Hfind eq_refl Hloop id d Hown) as (u & dt & Hu & ->).
    rewrite Hdt in Hu. injection Hu as <-. reflexivity. }
  destruct Hd as (d & Hown & Hd).
  split; [|split; [|split]].
  - intros u. rewrite getVariableType_eq, Hdt. eexists. split; reflexivity.
  - exists d. split; [exact Hown|]. rewrite Hd. reflexivity.
  - intros raw t t' Ht.
    destruct (put_nodeId_key_calls _ _ _ _ _ _ _ Hown Ht)
      as [-> | (w & -> & Hn & _ & Hty)]; [left; reflexivity|].
    right. exists w. rewrite Hty, Hd. auto.
  - intros raw s t Hraw.
    destruct (ToNumber_normal raw s Hraw) as [x Hx].
    assert (Hco : coerce d raw = Normal (JNum x))
      by (rewrite Hd; simpl; unfold Number; rewrite Hx; reflexivity).
    exists {| wv_nodeId := id; wv_attributeId := AttributeIds_Value;
              wv_dataType := name d; wv_value := JNum x |}.
    rewrite (put_nodeId_key _ _ _ _ _ _ _ _ Hown Hraw Hco). simpl.
    split; [|split; [reflexivity|rewrite Hd; reflexivity]].
    destruct (write session t _); reflexivity.
Qed.

Lemma uint16_written_as_Int16_witness :
  startup 3 diamond_session [] =
    Returned (["ns=1;i=1"; "ns=1;i=2"], diamond_index)
             [CallBrowse RootFolder; CallBrowse (ns1 10); CallBrowse (ns1 11);
              CallGetBuiltInDataType "ns=1;i=1";
              CallGetBuiltInDataType "ns=1;i=2"] /\
  "ns=1;i=1" ∈ ["ns=1;i=1"; "ns=1;i=2"] /\
  (forall u, getBuiltInDataType diamond_session u "ns=1;i=1" =
             Resolved DataType_UInt16) /\
  (forall u, exists d,
      getVariableType diamond_session "ns=1;i=1" u =
        Returned d (u ++ [CallGetBuiltInDataType "ns=1;i=1"]) /\
      name d = "Int16") /\
  (exists d, own diamond_index !! "ns=1;i=1" = Some d /\ name d = "Int16") /\
  (forall raw t t',
      trace_of (put_nodeId diamond_session diamond_index "ns=1;i=1" raw t) =
        Some t' ->
      t' = t \/
      exists w, t' = t ++ [CallWrite w] /\ wv_nodeId w = "ns=1;i=1" /\
                wv_dataType w = "Int16") /\
  (forall raw s t,
      ToString raw = Normal s ->
      exists w,
        trace_of (put_nodeId diamond_session diamond_index "ns=1;i=1" raw t) =
          Some (t ++ [CallWrite w]) /\
        wv_nodeId w = "ns=1;i=1" /\
        wv_dataType w = "Int16").
Proof.
  assert (Hin : "ns=1;i=1" ∈ ["ns=1;i=1"; "ns=1;i=2"]) by (left).
  assert (Hdt : forall u, getBuiltInDataType diamond_session u "ns=1;i=1" =
                          Resolved DataType_UInt16) by (intros u; reflexivity).
  split; [reflexivity|]. split; [exact Hin|]. split; [exact Hdt|].
  exact (uint16_written_as_Int16 3 diamond_session [] _ diamond_index _
           "ns=1;i=1" eq_refl Hin Hdt).
Defined.

(* ===================================================================== *)
(** * Further properties of the discovery *)
(* ===================================================================== *)

(** X1. Over a fixed address space the list [findVariables] returns holds
    exactly the variables reachable from the root through objects: nothing
    reachable is missed and nothing else is listed. *)
Theorem findVariables_exactly_reachable snapshot session fuel root t variables t' :
  fixed_address_space session snapshot ->
  findVariables fuel session root t = Returned variables t' ->
  forall id, id ∈ variables <-> reachable snapshot root id.
Proof.
  intros Hfix Hrun id. split.
  - eapply findVariables_sound; eauto.
  - eapply findVariables_complete; eauto.
Qed.

Lemma findVariables_exactly_reachable_witness :
  fixed_address_space diamond_session diamond_space /\
  findVariables 3 diamond_session RootFolder [] =
    Returned ["ns=1;i=1"; "ns=1;i=2"]
             [CallBrowse RootFolder; CallBrowse (ns1 10); CallBrowse (ns1 11)] /\
  (forall id, id ∈ ["ns=1;i=1"; "ns=1;i=2"] <->
              reachable diamond_space RootFolder id).
Proof.
  assert (Hfix : fixed_address_space diamond_session diamond_space)
    by (intros t n; reflexivity).
  split; [exact Hfix|]. split; [reflexivity|].
  exact (findVariables_exactly_reachable diamond_space diamond_session 3
           RootFolder [] _ _ Hfix eq_refl).
Defined.

Lemma for_of_filter_skip {A S} (keep : A -> bool) (body1 body2 : S -> A -> M S) l :
  (forall s x t, keep x = false -> body2 s x t = Returned s t) ->
  (forall s x t, keep x = true -> body1 s x t = body2 s x t) ->
  forall acc t,
    for_of (List.filter keep l) body1 acc t = for_of l body2 acc t.
Proof.
  intros Hskip Hsame. induction l as [|x l IH]; intros acc t; [reflexivity|].
  simpl. destruct (keep x) eqn:Hk.
  - simpl. unfold bind. rewrite (Hsame _ _ _ Hk).
    destruct (body2 acc x t); [apply IH|reflexivity..].
  - unfold bind. rewrite (Hskip _ _ _ Hk). apply IH.
Qed.

(** X2. References whose class is neither Object nor Variable play no part:
    hiding them from every browse answer changes neither the result of the
    walk nor the calls it makes. *)
Theorem findVariables_ignores_other_classes session : forall fuel n t,
  findVariables fuel (pruned session) n t = findVariables fuel session n t.
Proof.
  induction fuel as [|fuel' IH]; intros n t; [reflexivity|].
  rewrite !findVariables_unfold. unfold bind, await. simpl.
  destruct (browse session t n) as [refs|e]; [|reflexivity].
  apply for_of_filter_skip.
  - intros s r u Hk. unfold merge_body, bind, child_variables, walked_class in *.
    destruct (nodeClass r); try discriminate; reflexivity.
  - intros s r u Hk. unfold merge_body, bind, child_variables.
    destruct (N.eqb _ _); [rewrite IH|]; reflexivity.
Qed.

(** The calls of a loop, whichever way it ends. *)
Lemma for_of_calls {A S} (Q : Trace -> Prop) (body : S -> A -> M S) l :
  Q [] ->
  (forall a b, Q a -> Q b -> Q (a ++ b)) ->
  (forall s x t t', x ∈ l -> trace_of (body s x t) = Some t' ->
     exists c, t' = t ++ c /\ Q c) ->
  forall acc t t',
    trace_of (for_of l body acc t) = Some t' ->
    exists c, t' = t ++ c /\ Q c.
Proof.
  intros Hnil Happ. induction l as [|x l IH]; intros Hbody acc t t' Hrun.
  - injection Hrun as <-. exists []. rewrite app_nil_r. auto.
  - simpl in Hrun. unfold bind in Hrun.
    destruct (body acc x t) as [s1 t1|e t1|] eqn:Hx; [| |discriminate].
    + destruct (Hbody acc x t t1 ltac:(left) ltac:(rewrite Hx; reflexivity))
        as (c1 & -> & Hc1).
      destruct (IH (fun s y u u' Hy => Hbody s y u u' ltac:(right; exact Hy))
                   _ _ _ Hrun) as (c2 & -> & Hc2).
      exists (c1 ++ c2). rewrite app_assoc. auto.
    + injection Hrun as <-.
      apply (Hbody acc x t t1 ltac:(left)). rewrite Hx. reflexivity.
Qed.

(** X4. Discovery only browses: whether it returns or throws, the calls it
    has added to the trace start with the browse of the root and are all
    browses; it never asks for a type, reads or writes. *)
Theorem findVariables_only_browses session : forall fuel n t t',
  trace_of (findVariables fuel session n t) = Some t' ->
  exists calls, t' = t ++ CallBrowse n :: calls /\ Forall is_browse calls.
Proof.
  induction fuel as [|fuel' IH]; intros n t t' Hrun; [discriminate|].
  rewrite findVariables_unfold in Hrun. unfold bind at 1, await in Hrun.
  destruct (browse session t n) as [refs|e].
  - apply (for_of_calls (Forall is_browse)) in Hrun.
    + destruct Hrun as (c & -> & Hc). exists c. rewrite <- app_assoc. auto.
    + constructor.
    + intros a b Ha Hb. apply Forall_app. auto.
    + intros s r u u' _ Hbody. unfold merge_body, bind, child_variables in Hbody.
      destruct (N.eqb _ _).
      * destruct (findVariables fuel' session (nodeId r) u) as [cv u1|e u1|] eqn:Hf;
          simpl in Hbody; try discriminate; injection Hbody as <-;
          (destruct (IH (nodeId r) u u1) as (c & -> & Hc);
           [rewrite Hf; reflexivity|]);
          exists (CallBrowse (nodeId r) :: c); (split; [reflexivity|]);
          (constructor; [eexists; reflexivity | exact Hc]).
      * destruct (N.eqb _ _); injection Hbody as <-;
          exists []; rewrite app_nil_r; (split; [reflexivity|constructor]).
  - injection Hrun as <-. exists []. split; [reflexivity|constructor].
Qed.

Lemma findVariables_only_browses_witness :
  trace_of (findVariables 3 diamond_session RootFolder
              [CallReadVariableValue "ns=1;i=1"]) =
    Some [CallReadVariableValue "ns=1;i=1"; CallBrowse RootFolder;
          CallBrowse (ns1 10); CallBrowse (ns1 11)] /\
  (exists calls,
      [CallReadVariableValue "ns=1;i=1"; CallBrowse RootFolder;
       CallBrowse (ns1 10); CallBrowse (ns1 11)] =
      [CallReadVariableValue "ns=1;i=1"] ++ CallBrowse RootFolder :: calls /\
      Forall is_browse calls).
Proof.
  split; [reflexivity|].
  exact (findVariables_only_browses diamond_session 3 RootFolder
           [CallReadVariableValue "ns=1;i=1"] _ eq_refl).
Defined.

(** A loop throws what one of its rounds threw. *)
Lemma for_of_thrown {A S} (R : Error -> Trace -> Call -> Prop)
    (body : S -> A -> M S) l :
  (forall s x t s' t', x ∈ l -> body s x t = Returned s' t' ->
     exists c, t' = t ++ c) ->
  (forall s x t e t', x ∈ l -> body s x t = Thrown e t' ->
     exists c c0, t' = t ++ c ++ [c0] /\ R e (t ++ c) c0) ->
  forall acc t e t',
    for_of l body acc t = Thrown e t' ->
    exists c c0, t' = t ++ c ++ [c0] /\ R e (t ++ c) c0.
Proof.
  induction l as [|x l IH]; intros Hret Hthr acc t e t' Hrun; [discriminate|].
  simpl in Hrun. unfold bind in Hrun.
  destruct (body acc x t) as [s1 t1|e1 t1|] eqn:Hx; [| |discriminate].
  - destruct (Hret _ _ _ _ _ ltac:(left) Hx) as [c1 ->].
    destruct (IH (fun s y u s' u' Hy => Hret s y u s' u' ltac:(right; exact Hy))
                 (fun s y u e' u' Hy => Hthr s y u e' u' ltac:(right; exact Hy))
                 _ _ _ _ Hrun) as (c & c0 & -> & HR).
    exists (c1 ++ c), c0. rewrite <- !app_assoc in *. auto.
  - injection Hrun as <- <-. apply (Hthr _ _ _ _ _ ltac:(left) Hx).
Qed.

(** A throwing walk stopped at a rejected browse. *)
Lemma findVariables_thrown_rejected session : forall fuel n t e t',
  findVariables fuel session n t = Thrown e t' ->
  exists calls c,
    t' = t ++ calls ++ [c] /\
    rejected_by session e (t ++ calls) c /\ is_browse c.
Proof.
  induction fuel as [|fuel' IH]; intros n t e t' Hrun; [discriminate|].
  rewrite findVariables_unfold in Hrun. unfold bind at 1, await in Hrun.
  destruct (browse session t n) as [refs|e0] eqn:Hb.
  - apply (for_of_thrown
             (fun e t0 c => rejected_by session e t0 c /\ is_browse c))
      in Hrun.
    + destruct Hrun as (c & c0 & -> & Hrej & Hc).
      exists (CallBrowse n :: c), c0. rewrite <- !app_assoc in *. auto.
    + intros s r u s' u' _ Hbody.
      apply bind_returned in Hbody as (cv & u1 & Hf & Hret).
      apply ret_returned in Hret as [_ ->]. unfold child_variables in Hf.
      destruct (N.eqb _ _);
        [apply findVariables_trace in Hf as (c & -> & _); eauto|].
      destruct (N.eqb _ _); apply ret_returned in Hf as [_ ->];
        exists []; rewrite app_nil_r; reflexivity.
    + intros s r u e1 u' _ Hbody. unfold merge_body, bind, child_variables in Hbody.
      destruct (N.eqb _ _).
      * destruct (findVariables fuel' session (nodeId r) u) as [cv u1|e2 u1|] eqn:Hf;
          try discriminate. injection Hbody as <- <-.
        apply (IH _ _ _ _ Hf).
      * destruct (N.eqb _ _); discriminate.
  - injection Hrun as <- <-. exists [], (CallBrowse n). rewrite app_nil_r.
    simpl. split; [reflexivity|]. split; [exact Hb|]. eexists. reflexivity.
Qed.

(** X3. The only errors [findVariables] throws are rejections of its own
    browse calls: the walk stops at the first browse that fails, that call is
    the last one in the trace, and no partial list is produced. *)
Theorem findVariables_throws_browse_rejection session fuel n t e t' :
  findVariables fuel session n t = Thrown e t' ->
  exists calls m,
    t' = t ++ calls ++ [CallBrowse m] /\
    browse session (t ++ calls) m = Rejected e.
Proof.
  intros Hrun.
  apply findVariables_thrown_rejected in Hrun as (calls & c & -> & Hrej & m & ->).
  exists calls, m. split; [reflexivity|]. exact Hrej.
Qed.

Lemma findVariables_throws_browse_rejection_witness :
  findVariables 3 failing_browse_session RootFolder [] =
    Thrown timeout
           [CallBrowse RootFolder; CallBrowse (ns1 10); CallBrowse (ns1 11)] /\
  (exists calls m,
      [CallBrowse RootFolder; CallBrowse (ns1 10); CallBrowse (ns1 11)] =
        [] ++ calls ++ [CallBrowse m] /\
      browse failing_browse_session ([] ++ calls) m = Rejected timeout).
Proof.
  split; [reflexivity|].
  exact (findVariables_throws_browse_rejection failing_browse_session 3
           RootFolder [] timeout _ eq_refl).
Defined.


Lemma for_of_same {A S} (body1 body2 : S -> A -> M S) l :
  (forall s x t, x ∈ l -> body1 s x t <> OutOfFuel ->
     body2 s x t = body1 s x t) ->
  forall acc t,
    for_of l body1 acc t <> OutOfFuel ->
    for_of l body2 acc t = for_of l body1 acc t.
Proof.
  induction l as [|x l IH]; intros Hbody acc t Hrun; [reflexivity|].
  simpl in *. unfold bind in *.
  destruct (body1 acc x t) as [s1 t1|e t1|] eqn:Hx; [| |congruence].
  - rewrite (Hbody acc x t ltac:(left)), Hx by congruence.
    apply IH; [|exact Hrun]. intros s y u Hy. apply Hbody. right. exact Hy.
  - rewrite (Hbody acc x t ltac:(left)), Hx by congruence. reflexivity.
Qed.

(** A run that ends is not changed by a larger budget. *)
Lemma findVariables_more_fuel session : forall fuel fuel' n t,
  findVariables fuel session n t <> OutOfFuel ->
  fuel <= fuel' ->
  findVariables fuel' session n t = findVariables fuel session n t.
Proof.
  induction fuel as [|fuel IH]; intros fuel' n t Hrun Hle;
    [exfalso; apply Hrun; reflexivity|].
  destruct fuel' as [|fuel']; [lia|].
  rewrite !findVariables_unfold in *. unfold bind at 1 in Hrun. unfold bind, await in *.
  destruct (browse session t n) as [refs|e]; [|reflexivity].
  apply for_of_same; [|exact Hrun].
  intros s r u _ Hbody. unfold merge_body, bind, child_variables in *.
  destruct (N.eqb _ _); [|reflexivity].
  rewrite (IH fuel' (nodeId r) u); [reflexivity| |lia].
  intros Hout. rewrite Hout in Hbody. congruence.
Qed.

Lemma diamond_descends n refs r :
  diamond_space n = Resolved refs -> r ∈ refs ->
  nodeClass r = NodeClass_Object ->
  diamond_depth (nodeId r) < diamond_depth n.
Proof.
  intros Hsnap Hr Hc. unfold diamond_space in Hsnap.
  destruct (is_node n 0 84) eqn:Hroot.
  - injection Hsnap as <-. unfold diamond_depth at 2. rewrite Hroot.
    apply list_elem_of_In in Hr. simpl in Hr.
    destruct Hr as [<- | [<- | [<- | []]]]; try discriminate Hc;
      vm_compute; lia.
  - destruct (is_node n 1 10); [|destruct (is_node n 1 11)];
      injection Hsnap as <-; apply list_elem_of_In in Hr; simpl in Hr;
      repeat (destruct Hr as [<- | Hr]; [discriminate Hc|]); contradiction.
Qed.

(** X6. Where the references to objects descend along some measure (the
    hierarchy has no cycle), the walk ends: with a budget above the measure
    of the root it returns or throws, and every larger budget gives the very
    same outcome and calls. *)
Theorem findVariables_ends_on_acyclic snapshot session (depth : NodeId -> nat)
    fuel fuel' n t :
  fixed_address_space session snapshot ->
  (forall m refs r,
      snapshot m = Resolved refs -> r ∈ refs ->
      nodeClass r = NodeClass_Object -> depth (nodeId r) < depth m) ->
  depth n < fuel ->
  fuel <= fuel' ->
  findVariables fuel session n t <> OutOfFuel /\
  findVariables fuel' session n t = findVariables fuel session n t.
Proof.
  intros Hfix Hdesc Hlt Hle.
  pose proof (findVariables_terminates snapshot session depth Hfix Hdesc
                fuel n t Hlt) as Hend.
  split; [exact Hend|]. apply findVariables_more_fuel; assumption.
Qed.

Lemma findVariables_ends_on_acyclic_witness :
  fixed_address_space diamond_session diamond_space /\
  (forall m refs r,
      diamond_space m = Resolved refs -> r ∈ refs ->
      nodeClass r = NodeClass_Object ->
      diamond_depth (nodeId r) < diamond_depth m) /\
  diamond_depth RootFolder < 2 /\
  2 <= 9 /\
  findVariables 2 diamond_session RootFolder [] <> OutOfFuel /\
  findVariables 9 diamond_session RootFolder [] =
    findVariables 2 diamond_session RootFolder [].
Proof.
  assert (Hfix : fixed_address_space diamond_session diamond_space)
    by (intros t n; reflexivity).
  assert (Hlt : diamond_depth RootFolder < 2) by (vm_compute; lia).
  assert (Hle : 2 <= 9) by lia.
  split; [exact Hfix|]. split; [exact diamond_descends|].
  split; [exact Hlt|]. split; [exact Hle|].
  exact (findVariables_ends_on_acyclic diamond_space diamond_session
           diamond_depth 2 9 RootFolder [] Hfix diamond_descends Hlt Hle).
Defined.

(** X7. A walk that returns has gone less deep than its budget: no chain of
    object references from the root is as long as the budget. Hence where
    chains of every length exist (the objects form a cycle) the walk returns
    for no budget at all. *)
Theorem findVariables_returned_bounds_chains snapshot session :
  fixed_address_space session snapshot ->
  forall fuel n t variables t',
    findVariables fuel session n t = Returned variables t' ->
    forall k, chain snapshot n k -> k < fuel.
Proof.
  intros Hfix. induction fuel as [|fuel' IH]; intros n t variables t' Hrun k Hchain;
    [discriminate|].
  inversion Hchain as [|n0 refs r k' Hsnap Hr Hc Hrest]; subst; [lia|].
  apply findVariables_returned in Hrun as (f & refs0 & [= <-] & Hb & Hloop).
  rewrite Hfix, Hsnap in Hb. injection Hb as <-.
  apply merge_loop_complete in Hloop as [_ Hl].
  apply list_elem_of_In in Hr.
  destruct (Hl r Hr) as (t1 & cv & t2 & Hf & _).
  unfold child_variables in Hf. rewrite Hc in Hf. simpl in Hf.
  specialize (IH _ _ _ _ Hf k' Hrest). lia.
Qed.

Lemma findVariables_returned_bounds_chains_witness :
  fixed_address_space diamond_session diamond_space /\
  findVariables 3 diamond_session RootFolder [] =
    Returned ["ns=1;i=1"; "ns=1;i=2"]
             [CallBrowse RootFolder; CallBrowse (ns1 10); CallBrowse (ns1 11)] /\
  (forall k, chain diamond_space RootFolder k -> k < 3).
Proof.
  assert (Hfix : fixed_address_space diamond_session diamond_space)
    by (intros t n; reflexivity).
  split; [exact Hfix|]. split; [reflexivity|].
  exact (findVariables_returned_bounds_chains diamond_space diamond_session Hfix
           3 RootFolder [] _ _ eq_refl).
Defined.

(** The two folders that list each other have chains of every length. *)
Lemma cyclic_chains k :
  chain cyclic_space (ns1 20) k /\ chain cyclic_space (ns1 21) k.
Proof.
  induction k as [|k [IH20 IH21]]; [split; constructor|]. split.
  - apply (chain_step cyclic_space (ns1 20) _ (ref NodeClass_Object (ns1 21))
             k eq_refl); [left; reflexivity | reflexivity | exact IH21].
  - apply (chain_step cyclic_space (ns1 21) _ (ref NodeClass_Object (ns1 20))
             k eq_refl); [left; reflexivity | reflexivity | exact IH20].
Qed.

(* ===================================================================== *)
(** * Further properties of the type resolution *)
(* ===================================================================== *)

(** X8. Whatever the session answers, the name in a descriptor is one of ten
    names; it is never empty, and neither ['UInt16'] nor ['UInt64'] is ever
    given, although the first [switch] has arms for both tags. *)
Theorem getVariableType_names session id t d t' :
  getVariableType session id t = Returned d t' ->
  name d ∈ type_names /\
  name d <> "" /\ name d <> "UInt16" /\ name d <> "UInt64".
Proof.
  intros Hrun. rewrite getVariableType_eq in Hrun.
  destruct (getBuiltInDataType session t id) as [dt|e]; [|discriminate].
  injection Hrun as <- _.
  destruct dt; simpl; (split; [apply list_elem_of_In; simpl; auto 20|]);
    repeat split; discriminate.
Qed.

Lemma getVariableType_names_witness :
  getVariableType diamond_session "ns=1;i=1" [] =
    Returned {| name := "Int16"; coerce := Number |}
             [CallGetBuiltInDataType "ns=1;i=1"] /\
  "Int16" ∈ type_names /\
  "Int16" <> "" /\ "Int16" <> "UInt16" /\ "Int16" <> "UInt64".
Proof.
  split; [reflexivity|].
  exact (getVariableType_names diamond_session "ns=1;i=1" []
           {| name := "Int16"; coerce := Number |} _ eq_refl).
Defined.

(** X9. Which conversion a descriptor applies: [Boolean(val)], which always
    gives a boolean, for a Boolean variable; [Number(val)] for the eight
    numeric tags, reached through the arms that fall through; [String(val)]
    for String and LocalizedText; for every other tag the body goes through
    untouched. [Number] and [String] give a number and a string, or throw
    the [TypeError] of the conversion. *)
Theorem coerce_result_kind session id t dt d t' v :
  getBuiltInDataType session t id = Resolved dt ->
  getVariableType session id t = Returned d t' ->
  (dt = DataType_Boolean -> coerce d v = Normal (JBool (ToBoolean v))) /\
  (dt ∈ numeric_types ->
   coerce d v = match ToNumber v with
                | Normal x => Normal (JNum x)
                | ThrowTypeError m => ThrowTypeError m
                end) /\
  (dt ∈ [DataType_String; DataType_LocalizedText] ->
   coerce d v = match ToString v with
                | Normal s => Normal (JStr s)
                | ThrowTypeError m => ThrowTypeError m
                end) /\
  (dt <> DataType_Boolean -> dt ∉ numeric_types ->
   dt ∉ [DataType_String; DataType_LocalizedText] -> coerce d v = Normal v).
Proof.
  intros Hdt Hrun. rewrite getVariableType_eq, Hdt in Hrun.
  injection Hrun as <- _. simpl. split; [|split; [|split]].
  - intros ->. reflexivity.
  - intros Hin. apply list_elem_of_In in Hin. simpl in Hin.
    repeat (destruct Hin as [<- | Hin]; [reflexivity|]). contradiction.
  - intros Hin. apply list_elem_of_In in Hin. simpl in Hin.
    repeat (destruct Hin as [<- | Hin]; [reflexivity|]). contradiction.
  - intros Hb Hn Hs. destruct dt; try reflexivity; exfalso;
      first [ solve [apply Hb; reflexivity]
            | solve [apply Hn, list_elem_of_In; simpl; auto 20]
            | solve [apply Hs, list_elem_of_In; simpl; auto 20] ].
Qed.

Lemma coerce_result_kind_witness :
  getBuiltInDataType diamond_session [] "ns=1;i=1" = Resolved DataType_UInt16 /\
  getVariableType diamond_session "ns=1;i=1" [] =
    Returned {| name := "Int16"; coerce := Number |}
             [CallGetBuiltInDataType "ns=1;i=1"] /\
  (DataType_UInt16 = DataType_Boolean ->
   Number (JObj [("toString", JNum 1%float)]) =
     Normal (JBool (ToBoolean (JObj [("toString", JNum 1%float)])))) /\
  (DataType_UInt16 ∈ numeric_types ->
   Number (JObj [("toString", JNum 1%float)]) =
     match ToNumber (JObj [("toString", JNum 1%float)]) with
     | Normal x => Normal (JNum x)
     | ThrowTypeError m => ThrowTypeError m
     end) /\
  (DataType_UInt16 ∈ [DataType_String; DataType_LocalizedText] ->
   Number (JObj [("toString", JNum 1%float)]) =
     match ToString (JObj [("toString", JNum 1%float)]) with
     | Normal s => Normal (JStr s)
     | ThrowTypeError m => ThrowTypeError m
     end) /\
  (DataType_UInt16 <> DataType_Boolean -> DataType_UInt16 ∉ numeric_types ->
   DataType_UInt16 ∉ [DataType_String; DataType_LocalizedText] ->
   Number (JObj [("toString", JNum 1%float)]) =
     Normal (JObj [("toString", JNum 1%float)])).
Proof.
  split; [reflexivity|]. split; [reflexivity|].
  exact (coerce_result_kind diamond_session "ns=1;i=1" [] DataType_UInt16
           {| name := "Int16"; coerce := Number |} _
           (JObj [("toString", JNum 1%float)]) eq_refl eq_refl).
Defined.

(** The conversion of a body the handler cannot print. *)
Example Number_unprintable :
  Number (JObj [("toString", JNum 1%float)]) =
    ThrowTypeError "Cannot convert object to primitive value" /\
  String_ (JArr [JNum 1%float; JObj [("toString", JNull)]]) =
    ThrowTypeError "Cannot convert object to primitive value" /\
  Boolean (JObj [("toString", JNum 1%float)]) = Normal (JBool true) /\
  String_ (JArr [JNum 1%float; JNull; JObj [("valueOf", JNum 1%float)]]) =
    Normal (JStr "1,,[object Object]").
Proof. repeat split; vm_compute; reflexivity. Qed.

(** X10. A coerced value is a fixed point of the coercion: when
    [coerce(v)] gives [w], [coerce(w)] gives [w] again, for the descriptor of
    every tag. *)
Theorem coerce_idempotent session id t d t' v w :
  getVariableType session id t = Returned d t' ->
  coerce d v = Normal w ->
  coerce d w = Normal w.
Proof.
  intros Hrun. rewrite getVariableType_eq in Hrun.
  destruct (getBuiltInDataType session t id) as [dt|e]; [|discriminate].
  injection Hrun as <- _. simpl.
  destruct (switch_coerce_cases dt (fun val => Normal val))
    as [-> | [-> | [-> | ->]]].
  - intros [= <-]. reflexivity.
  - unfold Number at 1. destruct (ToNumber v); intros [= <-]. reflexivity.
  - unfold String_ at 1. destruct (ToString v); intros [= <-]. reflexivity.
  - intros [= <-]. reflexivity.
Qed.

Lemma coerce_idempotent_witness :
  getVariableType diamond_session "ns=1;i=1" [] =
    Returned {| name := "Int16"; coerce := Number |}
             [CallGetBuiltInDataType "ns=1;i=1"] /\
  Number (JStr "42") = Normal (JNum 42%float) /\
  Number (JNum 42%float) = Normal (JNum 42%float).
Proof.
  assert (H42 : Number (JStr "42") = Normal (JNum 42%float))
    by (vm_compute; reflexivity).
  split; [reflexivity|]. split; [exact H42|].
  exact (coerce_idempotent diamond_session "ns=1;i=1" []
           {| name := "Int16"; coerce := Number |} _ (JStr "42")
           (JNum 42%float) eq_refl H42).
Defined.

(* ===================================================================== *)
(** * Further properties of the start-up *)
(* ===================================================================== *)

(** [startup] is the discovery followed by the loop over its result. *)
Lemma startup_eq fuel session t :
  startup fuel session t =
  match findVariables fuel session RootFolder t with
  | Returned variables t1 =>
      match for_of variables (index_body session) empty_object t1 with
      | Returned variableTypes t2 => Returned (variables, variableTypes) t2
      | Thrown e t2 => Thrown e t2
      | OutOfFuel => OutOfFuel
      end
  | Thrown e t1 => Thrown e t1
  | OutOfFuel => OutOfFuel
  end.
Proof.
  unfold startup. unfold bind at 1.
  destruct (findVariables fuel session RootFolder t) as [vs t1|e t1|];
    [|reflexivity..].
  transitivity
    (match for_of vs (index_body session) empty_object t1 with
     | Returned variableTypes t2 => ret (vs, variableTypes) t2
     | Thrown e t2 => Thrown e t2
     | OutOfFuel => OutOfFuel
     end); [reflexivity|].
  destruct (for_of vs (index_body session) empty_object t1); reflexivity.
Qed.

(** X11. The start-up code fails only with a rejection of the session: of a
    browse during discovery or of a type query in the loop. The rejected
    call is the last one made, so nothing is attempted after a failure, and
    no index is produced. *)
Theorem startup_throws_session_rejection fuel session t e t' :
  startup fuel session t = Thrown e t' ->
  exists calls c,
    t' = t ++ calls ++ [c] /\
    rejected_by session e (t ++ calls) c /\
    (is_browse c \/ exists id, c = CallGetBuiltInDataType id).
Proof.
  rewrite startup_eq. intros Hrun.
  destruct (findVariables fuel session RootFolder t) as [vs t1|e1 t1|] eqn:Hfind;
    [| |discriminate].
  - apply findVariables_trace in Hfind as (c1 & -> & _).
    destruct (for_of vs (index_body session) empty_object (t ++ c1))
      as [vt t2|e2 t2|] eqn:Hloop; [discriminate| |discriminate].
    injection Hrun as <- <-.
    apply (for_of_thrown
             (fun e t0 c => rejected_by session e t0 c /\
                            exists id, c = CallGetBuiltInDataType id))
      in Hloop.
    + destruct Hloop as (c & c0 & -> & Hrej & Hc).
      exists (c1 ++ c), c0. rewrite <- !app_assoc in *. auto.
    + intros s x u s' u' _ Hbody.
      apply index_body_returned in Hbody as (dt & _ & _ & ->). eauto.
    + intros s x u e0 u' _ Hbody. unfold index_body, bind in Hbody.
      rewrite getVariableType_eq in Hbody.
      destruct (getBuiltInDataType session u x) as [dt|e3] eqn:Hq;
        [discriminate|]. injection Hbody as <- <-.
      exists [], (CallGetBuiltInDataType x). rewrite app_nil_r. simpl. eauto.
  - injection Hrun as <- <-.
    apply findVariables_thrown_rejected in Hfind as (c & c0 & -> & Hrej & Hc).
    exists c, c0. auto.
Qed.

Lemma startup_throws_session_rejection_witness :
  startup 3 failing_type_session [] =
    Thrown timeout
           [CallBrowse RootFolder; CallBrowse (ns1 10); CallBrowse (ns1 11);
            CallGetBuiltInDataType "ns=1;i=1";
            CallGetBuiltInDataType "ns=1;i=2"] /\
  (exists calls c,
      [CallBrowse RootFolder; CallBrowse (ns1 10); CallBrowse (ns1 11);
       CallGetBuiltInDataType "ns=1;i=1";
       CallGetBuiltInDataType "ns=1;i=2"] = [] ++ calls ++ [c] /\
      rejected_by failing_type_session timeout ([] ++ calls) c /\
      (is_browse c \/ exists id, c = CallGetBuiltInDataType id)).
Proof.
  split; [reflexivity|].
  exact (startup_throws_session_rejection 3 failing_type_session [] timeout _
           eq_refl).
Defined.

(** X18. Assignment and lookup on [variableTypes]: under any name other than
    [__proto__] an assigned descriptor is read back, the other names read
    as before and the prototype stays; an assignment to [__proto__] creates
    no key at all. *)
Theorem set_then_get variableTypes id d :
  id <> "__proto__" ->
  get (set variableTypes id d) id = PDescriptor d /\
  (forall id', id' <> id ->
     get (set variableTypes id d) id' = get variableTypes id') /\
  proto (set variableTypes id d) = proto variableTypes /\
  own (set variableTypes "__proto__" d) = own variableTypes.
Proof.
  intros Hid. apply String.eqb_neq in Hid. unfold set. rewrite Hid.
  split; [|split; [|split; reflexivity]].
  - unfold get. simpl. rewrite lookup_insert_eq. reflexivity.
  - intros id' Hne. unfold get. simpl.
    rewrite lookup_insert_ne by congruence. reflexivity.
Qed.

Lemma set_then_get_witness :
  "toString" <> "__proto__" /\
  get (set diamond_index "toString" {| name := "String"; coerce := String_ |})
      "toString" = PDescriptor {| name := "String"; coerce := String_ |} /\
  (forall id', id' <> "toString" ->
     get (set diamond_index "toString" {| name := "String"; coerce := String_ |})
         id' = get diamond_index id') /\
  proto (set diamond_index "toString" {| name := "String"; coerce := String_ |}) =
    proto diamond_index /\
  own (set diamond_index "__proto__" {| name := "String"; coerce := String_ |}) =
    own diamond_index.
Proof.
  assert (H : "toString" <> "__proto__") by discriminate.
  split; [exact H|].
  exact (set_then_get diamond_index "toString"
           {| name := "String"; coerce := String_ |} H).
Defined.

(* ===================================================================== *)
(** * Further properties of the gateway *)
(* ===================================================================== *)


(** A structure with a field called [toString] is answered with 200, and
    the handler rejects afterwards. *)
Example get_unprintable_value :
  get_nodeId structure_session diamond_index "ns=1;i=1" [] =
    Returned {| statusCode := 200;
                body := BodyJson (JObj [("toString", JStr "x")]) |}
             [CallReadVariableValue "ns=1;i=1"] /\
  get_nodeId_handler structure_session diamond_index "ns=1;i=1" None [] =
    RejectedWith headers_sent
      (Some {| statusCode := 200;
               body := BodyJson (JObj [("toString", JStr "x")]) |})
      [CallReadVariableValue "ns=1;i=1"].
Proof. split; reflexivity. Qed.

(** X14. The PUT handler makes at most one call, a write of the [Value]
    attribute of the requested name. When it answers, the status is 404
    (and no call was made), 204 or 400; when it throws, it is a [TypeError]
    raised before any call (the body cannot be converted, or what the index
    gave has no [coerce] method) or the rejection of its write. *)
Theorem put_nodeId_outcomes session variableTypes id raw t :
  match put_nodeId session variableTypes id raw t with
  | Returned r t' =>
      (r = {| statusCode := 404; body := BodyText "Not Found" |} /\ t' = t) \/
      ((statusCode r = 204%N \/ statusCode r = 400%N) /\
       exists w, t' = t ++ [CallWrite w] /\ wv_nodeId w = id /\
                 wv_attributeId w = AttributeIds_Value)
  | Thrown e t' =>
      (err_name e = "TypeError" /\ t' = t) \/
      (exists w, t' = t ++ [CallWrite w] /\ wv_nodeId w = id /\
                 write session t w = Rejected e)
  | OutOfFuel => False
  end.
Proof.
  unfold put_nodeId, bind at 1, console_log, bind, eval.
  destruct (ToString raw) as [s|m]; [|left; split; reflexivity].
  destruct (truthy (get variableTypes id)); simpl; [|auto].
  destruct (get variableTypes id) as [d| | | |]; try (left; split; reflexivity).
  unfold bind, eval, await.
  destruct (coerce d raw) as [coerced|m]; [|left; split; reflexivity].
  destruct (write session t _) as [st|e] eqn:Hw.
  - destruct (N.eqb (value st) 0); right; (split; [simpl; auto|]);
      eexists; repeat split.
  - right. eexists. repeat split. exact Hw.
Qed.

(** X15. A PUT under a name that [Object.prototype] defines, and that is no
    key of the index, is not answered with 404: once the body is logged, the
    handler takes the inherited property for a descriptor and throws a
    [TypeError] before any call to the session. *)
Theorem put_inherited_name_throws session variableTypes id raw s t :
  proto variableTypes = None ->
  own variableTypes !! id = None ->
  id ∈ object_prototype_names ->
  ToString raw = Normal s ->
  put_nodeId session variableTypes id raw t = Thrown type_error t.
Proof.
  intros Hproto Hown Hin Hraw. unfold put_nodeId, bind at 1.
  rewrite (console_log_normal _ _ _ Hraw). unfold get. rewrite Hown, Hproto.
  apply list_elem_of_In in Hin. simpl in Hin.
  repeat (destruct Hin as [<- | Hin]; [reflexivity|]). contradiction.
Qed.

Lemma put_inherited_name_throws_witness :
  proto diamond_index = None /\
  own diamond_index !! "toString" = None /\
  "toString" ∈ object_prototype_names /\
  ToString (JBool true) = Normal "true" /\
  put_nodeId diamond_session diamond_index "toString" (JBool true) [] =
    Thrown type_error [].
Proof.
  assert (Hin : "toString" ∈ object_prototype_names).
  { apply list_elem_of_In. simpl. auto 20. }
  split; [reflexivity|]. split; [reflexivity|]. split; [exact Hin|].
  split; [reflexivity|].
  exact (put_inherited_name_throws diamond_session diamond_index "toString"
           (JBool true) "true" [] eq_refl eq_refl Hin eq_refl).
Defined.

(** X16. A GET under such a name is not answered with 404 either: the
    handler reads the name from the session and answers 200 or 500. *)
Theorem get_inherited_name_reads session variableTypes id t :
  proto variableTypes = None ->
  own variableTypes !! id = None ->
  id ∈ object_prototype_names ->
  get_nodeId session variableTypes id t =
  match readVariableValue session t id with
  | Resolved val =>
      Returned {| statusCode := 200; body := BodyJson (dv_value val) |}
               (t ++ [CallReadVariableValue id])
  | Rejected e =>
      Returned {| statusCode := 500; body := BodyError e |}
               (t ++ [CallReadVariableValue id])
  end.
Proof.
  intros Hproto Hown Hin.
  assert (Htruthy : truthy (get variableTypes id) = true).
  { unfold get. rewrite Hown, Hproto.
    apply list_elem_of_In in Hin. simpl in Hin.
    repeat (destruct Hin as [<- | Hin]; [reflexivity|]). contradiction. }
  unfold get_nodeId. rewrite Htruthy. simpl. unfold try_catch, bind, await.
  destruct (readVariableValue session t id); reflexivity.
Qed.

Lemma get_inherited_name_reads_witness :
  proto diamond_index = None /\
  own diamond_index !! "constructor" = None /\
  "constructor" ∈ object_prototype_names /\
  get_nodeId diamond_session diamond_index "constructor" [] =
    Returned {| statusCode := 500; body := BodyError unknown_node |}
             [CallReadVariableValue "constructor"].
Proof.
  assert (Hin : "constructor" ∈ object_prototype_names).
  { apply list_elem_of_In. simpl. auto 20. }
  split; [reflexivity|]. split; [reflexivity|]. split; [exact Hin|].
  exact (get_inherited_name_reads diamond_session diamond_index "constructor"
           [] eq_refl eq_refl Hin).
Defined.



(** X17. Sending a value that is already coerced changes nothing: for a key
    of the index built at start-up and a body that can be converted to a
    string, the coercion gives a value, and a PUT of that value makes the
    same write and gets the same answer as a PUT of the body. *)
Theorem put_of_coerced_body fuel session t0 variables variableTypes t1
    id d raw s t :
  startup fuel session t0 = Returned (variables, variableTypes) t1 ->
  own variableTypes !! id = Some d ->
  ToString raw = Normal s ->
  exists coerced,
    coerce d raw = Normal coerced /\
    put_nodeId session variableTypes id coerced t =
    put_nodeId session variableTypes id raw t.
Proof.
  intros Hstart Hown Hraw.
  destruct (startup_descriptor _ _ _ _ _ _ _ _ Hstart Hown) as [dt ->].
  simpl in *.
  destruct (ToNumber_normal raw s Hraw) as [x Hx].
  destruct (switch_coerce_cases dt (fun val => Normal val)) as [Hc | [Hc | [Hc | Hc]]].
  - exists (JBool (ToBoolean raw)). split; [rewrite Hc; reflexivity|].
    rewrite (put_nodeId_key _ _ _ _ (JBool (ToBoolean raw)) _
               (JBool (ToBoolean raw)) t Hown eq_refl)
      by (simpl; rewrite Hc; reflexivity).
    rewrite (put_nodeId_key _ _ _ _ raw _ (JBool (ToBoolean raw)) t Hown Hraw)
      by (simpl; rewrite Hc; reflexivity).
    reflexivity.
  - exists (JNum x). split; [rewrite Hc; unfold Number; rewrite Hx; reflexivity|].
    rewrite (put_nodeId_key _ _ _ _ (JNum x) _ (JNum x) t Hown eq_refl)
      by (simpl; rewrite Hc; reflexivity).
    rewrite (put_nodeId_key _ _ _ _ raw _ (JNum x) t Hown Hraw)
      by (simpl; rewrite Hc; unfold Number; rewrite Hx; reflexivity).
    reflexivity.
  - exists (JStr s). split; [rewrite Hc; unfold String_; rewrite Hraw; reflexivity|].
    rewrite (put_nodeId_key _ _ _ _ (JStr s) _ (JStr s) t Hown eq_refl)
      by (simpl; rewrite Hc; reflexivity).
    rewrite (put_nodeId_key _ _ _ _ raw _ (JStr s) t Hown Hraw)
      by (simpl; rewrite Hc; unfold String_; rewrite Hraw; reflexivity).
    reflexivity.
  - exists raw. split; [rewrite Hc; reflexivity|]. reflexivity.
Qed.

Lemma put_of_coerced_body_witness :
  startup 3 diamond_session [] =
    Returned (["ns=1;i=1"; "ns=1;i=2"], diamond_index)
             [CallBrowse RootFolder; CallBrowse (ns1 10); CallBrowse (ns1 11);
              CallGetBuiltInDataType "ns=1;i=1";
              CallGetBuiltInDataType "ns=1;i=2"] /\
  own diamond_index !! "ns=1;i=1" = Some {| name := "Int16"; coerce := Number |} /\
  ToString (JStr "42") = Normal "42" /\
  (exists coerced,
      Number (JStr "42") = Normal coerced /\
      put_nodeId diamond_session diamond_index "ns=1;i=1" coerced [] =
      put_nodeId diamond_session diamond_index "ns=1;i=1" (JStr "42") []).
Proof.
  split; [reflexivity|]. split; [reflexivity|]. split; [reflexivity|].
  exact (put_of_coerced_body 3 diamond_session [] _ diamond_index _ "ns=1;i=1"
           {| name := "Int16"; coerce := Number |} (JStr "42") "42" []
           eq_refl eq_refl eq_refl).
Defined.
